(** * uniqlo_sale: the price checker of [script.py], embedded and verified

    The script visits a list of product pages with a Selenium-driven browser,
    reads the title and the price elements of each page, keeps the items that
    show two prices (an original and a sale price) and sends one Telegram
    message that lists them.

    The embedding follows the script function by function:
    - Python [str] values are lists of Unicode code points;
    - the browser, the network and the clock are an interface ([Host]) whose
      operations take and return the state of the outside world, and may
      raise;
    - the functions of the script live in a state-and-exception monad over
      that world, extended with what the script prints. *)

From Stdlib Require Import String Ascii NArith Arith Bool List Lia.
Import ListNotations.

Set Implicit Arguments.

(* ------------------------------------------------------------------ *)
(** * Python strings *)

(** A Python [str] is a sequence of code points. *)
Definition pystr : Type := list N.

(** An ASCII literal of the script, as a [pystr]. *)
Definition lit (s : string) : pystr :=
  map N_of_ascii (list_ascii_of_string s).

(** The line feed written [\n] in the script's literals. *)
Definition NL : pystr := [10%N].

(** [a == b] on strings. *)
Fixpoint str_eqb (a b : pystr) : bool :=
  match a, b with
  | [], [] => true
  | x :: a', y :: b' => N.eqb x y && str_eqb a' b'
  | _, _ => false
  end.

(** Truth value of a string in a condition: non-empty. *)
Definition truthy (s : pystr) : bool :=
  match s with [] => false | _ :: _ => true end.

(** The two character tables of the interpreter that the script relies on:
    [isspace] is the set removed by [str.strip()], [isdecimal] is the class
    [\d] of [re] on [str] patterns (Unicode category Nd).  They belong to
    the interpreter, not to the script, so the development is parametric in
    them; [cpython_unicode] below is the table of CPython 3.11. *)
Class Unicode : Type := {
  isspace : N -> bool;
  isdecimal : N -> bool
}.

Definition in_ranges (table : list (N * N)) (c : N) : bool :=
  existsb (fun r => N.leb (fst r) c && N.leb c (snd r)) table.

Definition cpython_whitespace : list (N * N) :=
  [(9, 13); (28, 32); (133, 133); (160, 160); (5760, 5760); (8192, 8202);
   (8232, 8233); (8239, 8239); (8287, 8287); (12288, 12288)]%N.

Definition cpython_Nd_starts : list N :=
  [48; 1632; 1776; 1984; 2406; 2534; 2662; 2790; 2918; 3046; 3174; 3302;
   3430; 3558; 3664; 3792; 3872; 4160; 4240; 6112; 6160; 6470; 6608; 6784;
   6800; 6992; 7088; 7232; 7248; 42528; 43216; 43264; 43472; 43504; 43600;
   44016; 65296; 66720; 68912; 69734; 69872; 69942; 70096; 70384; 70736;
   70864; 71248; 71360; 71472; 71904; 72016; 72784; 73040; 73120; 92768;
   92864; 93008; 123200; 123632; 125264; 130032]%N.

(** Every block of decimal digits is ten code points long, except the
    mathematical digits U+1D7CE..U+1D7FF, five blocks in a row. *)
Definition cpython_Nd : list (N * N) :=
  (120782, 120831)%N :: map (fun s => (s, s + 9)%N) cpython_Nd_starts.

#[export] Instance cpython_unicode : Unicode := {
  isspace := in_ranges cpython_whitespace;
  isdecimal := in_ranges cpython_Nd
}.

Section Strings.
Context {U : Unicode}.

Fixpoint lstrip (s : pystr) : pystr :=
  match s with
  | [] => []
  | c :: s' => if isspace c then lstrip s' else s
  end.

Definition rstrip (s : pystr) : pystr := rev (lstrip (rev s)).

(** [s.strip()] *)
Definition strip (s : pystr) : pystr := rstrip (lstrip s).

End Strings.

(** [sep.join(parts)] *)
Fixpoint join (sep : pystr) (parts : list pystr) : pystr :=
  match parts with
  | [] => []
  | [p] => p
  | p :: ps => p ++ sep ++ join sep ps
  end.

(** Decimal rendering of a non-negative [int] inside an f-string. *)
Fixpoint str_of_uint (u : Decimal.uint) : pystr :=
  match u with
  | Decimal.Nil => []
  | Decimal.D0 u' => 48%N :: str_of_uint u'
  | Decimal.D1 u' => 49%N :: str_of_uint u'
  | Decimal.D2 u' => 50%N :: str_of_uint u'
  | Decimal.D3 u' => 51%N :: str_of_uint u'
  | Decimal.D4 u' => 52%N :: str_of_uint u'
  | Decimal.D5 u' => 53%N :: str_of_uint u'
  | Decimal.D6 u' => 54%N :: str_of_uint u'
  | Decimal.D7 u' => 55%N :: str_of_uint u'
  | Decimal.D8 u' => 56%N :: str_of_uint u'
  | Decimal.D9 u' => 57%N :: str_of_uint u'
  end.

Definition str_of_nat (n : nat) : pystr := str_of_uint (Nat.to_uint n).

(* ------------------------------------------------------------------ *)
(** * The regular expression of [convert_to_app_link] *)

(** The pattern [E\d{6}-\d{3}] is a sequence of one-character classes, so a
    match at a given position is the next eleven characters or nothing, and
    [re.search] returns the leftmost position that matches. *)
Inductive cclass : Type :=
| Lit (c : N)
| Digit.

Section Regex.
Context {U : Unicode}.

Definition cmatch (k : cclass) (c : N) : bool :=
  match k with
  | Lit a => N.eqb a c
  | Digit => isdecimal c
  end.

(** The text matched by pattern [p] at the start of [s], if any. *)
Fixpoint match_here (p : list cclass) (s : pystr) : option pystr :=
  match p with
  | [] => Some []
  | k :: p' =>
      match s with
      | [] => None
      | c :: s' =>
          if cmatch k c
          then match match_here p' s' with
               | Some m => Some (c :: m)
               | None => None
               end
          else None
      end
  end.

(** [m] is a full match of [p]: as long as [p], class by class. *)
Fixpoint matches (p : list cclass) (m : pystr) : bool :=
  match p, m with
  | [], [] => true
  | k :: p', c :: m' => cmatch k c && matches p' m'
  | _, _ => false
  end.

(** [re.search(p, s)]: group 1 of the leftmost match. *)
Fixpoint re_search (p : list cclass) (s : pystr) : option pystr :=
  match match_here p s with
  | Some m => Some m
  | None =>
      match s with
      | [] => None
      | _ :: s' => re_search p s'
      end
  end.

(** [r'(E\d{6}-\d{3})'] *)
Definition product_id_pattern : list cclass :=
  Lit 69 :: repeat Digit 6 ++ Lit 45 :: repeat Digit 3.

Definition app_link_prefix : pystr := lit "https://s.uniqlo.com/id/en/product/".

Definition convert_to_app_link (web_url : pystr) : pystr :=
  match re_search product_id_pattern web_url with
  | None => web_url
  | Some product_id => app_link_prefix ++ product_id
  end.

End Regex.

(* ------------------------------------------------------------------ *)
(** * Exceptions and the outside world *)

(** The exceptions that reach the script: Selenium's [WebDriverException]
    (timeouts, stale elements, navigation errors), the [RequestException] of
    [requests], and any other subclass of [Exception].  Each carries the
    text that [str(e)] gives. *)
Inductive exn : Type :=
| WebDriverException (msg : pystr)
| RequestException (msg : pystr)
| OtherException (msg : pystr).

Definition exn_str (e : exn) : pystr :=
  match e with
  | WebDriverException m => m
  | RequestException m => m
  | OtherException m => m
  end.

(** [except Exception] *)
Definition is_Exception (e : exn) : bool := true.

(** [except requests.exceptions.RequestException] *)
Definition is_RequestException (e : exn) : bool :=
  match e with
  | RequestException _ => true
  | _ => false
  end.

(** The outcome of a call: a value, or a raised exception. *)
Inductive result (A : Type) : Type :=
| Ok (a : A)
| Raise (e : exn).

Arguments Ok {A} a.
Arguments Raise {A} e.

(** Selenium's locator strategies used by the script. *)
Inductive By : Type :=
| CSS_SELECTOR
| CLASS_NAME.

(** The JSON body posted to the Telegram API. *)
Record Payload : Type := mkPayload {
  chat_id : pystr;
  text : pystr;
  parse_mode : pystr;
  disable_web_page_preview : bool
}.

(** What the script reads of a [requests.Response]: the status, and for
    the text of an [HTTPError] the reason phrase and [Response.url], the
    final URL of the request as [requests] reports it. *)
Record Response : Type := mkResponse {
  status_code : nat;
  reason : pystr;
  response_url : pystr
}.

(** The collaborators of the script: the Chrome session behind [driver],
    the network behind [requests.post], and the clock.  [H] is the state of
    the outside world and [E] the type of element handles.  Every operation
    that can raise returns a [result] next to the new state.  [driver.quit()]
    of the Chrome driver swallows its own errors and the clock cannot fail. *)
Class Host (H E : Type) : Type := {
  webdriver_Chrome : list pystr -> H -> result unit * H;
  driver_get : pystr -> H -> result unit * H;
  wait_until_presence : nat -> By -> pystr -> H -> result E * H;
  driver_find_elements : By -> pystr -> H -> result (list E) * H;
  element_text : E -> H -> result pystr * H;
  driver_quit : H -> H;
  requests_post : pystr -> Payload -> H -> result Response * H;
  time_ctime : H -> pystr;
  time_sleep : nat -> H -> H
}.

(** What a run leaves behind, in order: the lines printed, the HTTP posts
    issued, and (as a ghost record) the calls of the notifier. *)
Inductive Event : Type :=
| Printed (line : pystr)
| Posted (api_url : pystr) (payload : Payload)
| Notified (message : pystr).

Record World (H : Type) : Type := mkWorld {
  host : H;
  trace : list Event
}.

(* ------------------------------------------------------------------ *)
(** * The monad of the script: state and exceptions *)

Definition M (S A : Type) : Type := S -> result A * S.

Definition ret {S A : Type} (a : A) : M S A := fun s => (Ok a, s).

Definition bind {S A B : Type} (m : M S A) (k : A -> M S B) : M S B :=
  fun s =>
    match m s with
    | (Ok a, s') => k a s'
    | (Raise e, s') => (Raise e, s')
    end.

Notation "x <- m ;; k" := (bind m (fun x => k))
  (at level 61, m at next level, right associativity).
Notation "m ;; k" := (bind m (fun _ => k))
  (at level 61, right associativity).

(** [try: body / except <class> as e: handler e] *)
Definition try_except {S A : Type} (catches : exn -> bool)
  (body : M S A) (handler : exn -> M S A) : M S A :=
  fun s =>
    match body s with
    | (Ok a, s') => (Ok a, s')
    | (Raise e, s') => if catches e then handler e s' else (Raise e, s')
    end.

(** A block that owns a mutable local of type [L], started at [l0]. *)
Definition with_local {S L A : Type} (l0 : L) (m : M (L * S) A) : M S A :=
  fun s =>
    match m (l0, s) with
    | (r, (_, s')) => (r, s')
    end.

Definition outer {S L A : Type} (m : M S A) : M (L * S) A :=
  fun ls =>
    match m (snd ls) with
    | (r, s') => (r, (fst ls, s'))
    end.

Definition get_local {S L : Type} : M (L * S) L :=
  fun ls => (Ok (fst ls), ls).

Definition update_local {S L : Type} (f : L -> L) : M (L * S) unit :=
  fun ls => (Ok tt, (f (fst ls), snd ls)).

Section WorldOps.
Context {H E : Type} {HostHE : Host H E}.

(** A call of a host operation that may raise. *)
Definition call {A : Type} (op : H -> result A * H) : M (World H) A :=
  fun w =>
    match op (host w) with
    | (r, h') => (r, mkWorld h' (trace w))
    end.

(** A host operation that cannot raise. *)
Definition effect (op : H -> H) : M (World H) unit :=
  fun w => (Ok tt, mkWorld (op (host w)) (trace w)).

(** A reading of the host that changes nothing. *)
Definition ask {A : Type} (f : H -> A) : M (World H) A :=
  fun w => (Ok (f (host w)), w).

Definition emit (ev : Event) : M (World H) unit :=
  fun w => (Ok tt, mkWorld (host w) (trace w ++ [ev])).

(** [print(line)] *)
Definition print (line : pystr) : M (World H) unit := emit (Printed line).

End WorldOps.

(* ------------------------------------------------------------------ *)
(** * The script *)

(** The CONFIGURATION section of the script. *)
Record Config : Type := mkConfig {
  TELEGRAM_BOT_TOKEN : pystr;
  TELEGRAM_CHAT_ID : pystr;
  PRODUCT_URLS : list pystr
}.

Definition BOT_TOKEN_PLACEHOLDER : pystr := lit "YOUR_BOT_TOKEN_HERE".
Definition CHAT_ID_PLACEHOLDER : pystr := lit "YOUR_CHAT_ID_HERE".

(** The configuration as the repository ships it. *)
Definition shipped_config : Config := {|
  TELEGRAM_BOT_TOKEN := lit "YOUR_BOT_TOKEN_HERE";
  TELEGRAM_CHAT_ID := lit "YOUR_CHAT_ID_HERE";
  PRODUCT_URLS :=
    [ lit "https://www.uniqlo.com/id/id/products/E479169-000?colorCode=COL09&sizeCode=SMA007";
      lit "https://www.uniqlo.com/id/id/products/E474437-000?colorCode=COL00&sizeCode=SMA007";
      lit "https://www.uniqlo.com/id/id/products/E478913-000?colorCode=COL00&sizeCode=SMA006";
      lit "https://www.uniqlo.com/id/id/products/E474432-000?colorCode=COL09&sizeCode=SMA007" ]
|}.

(** The dictionary [product_details]; [original_price] is [None] or a
    string. *)
Record product_details : Type := mkDetails {
  name : pystr;
  current_price : pystr;
  is_on_sale : bool;
  original_price : option pystr;
  url : pystr
}.

Definition NAME_NOT_FOUND : pystr := lit "Name not found".
Definition PRICE_NOT_FOUND : pystr := lit "Price not found".

(** The dictionary as [check_specific_item_price_selenium] creates it. *)
Definition initial_details (product_url : pystr) : product_details := {|
  name := NAME_NOT_FOUND;
  current_price := PRICE_NOT_FOUND;
  is_on_sale := false;
  original_price := None;
  url := product_url
|}.

Definition set_name (v : pystr) (d : product_details) : product_details :=
  mkDetails v (current_price d) (is_on_sale d) (original_price d) (url d).

Definition set_current_price (v : pystr) (d : product_details)
  : product_details :=
  mkDetails (name d) v (is_on_sale d) (original_price d) (url d).

Definition set_is_on_sale (v : bool) (d : product_details)
  : product_details :=
  mkDetails (name d) (current_price d) v (original_price d) (url d).

Definition set_original_price (v : option pystr) (d : product_details)
  : product_details :=
  mkDetails (name d) (current_price d) (is_on_sale d) v (url d).

(** [f"{v}"] of a value that is [None] or a string. *)
Definition format_optional (v : option pystr) : pystr :=
  match v with
  | Some s => s
  | None => lit "None"
  end.

(** [Response.raise_for_status()] of [requests]: an [HTTPError], which is a
    [RequestException], for the 4xx and 5xx codes; its text names the URL
    of the response. *)
Definition http_error_msg (kind : string) (r : Response) : pystr :=
  str_of_nat (status_code r) ++ lit " " ++ lit kind ++ lit " Error: "
    ++ reason r ++ lit " for url: " ++ response_url r.

Definition raise_for_status {S : Type} (r : Response) : M S unit :=
  fun s =>
    if (400 <=? status_code r) && (status_code r <? 500)
    then (Raise (RequestException (http_error_msg "Client" r)), s)
    else if (500 <=? status_code r) && (status_code r <? 600)
    then (Raise (RequestException (http_error_msg "Server" r)), s)
    else (Ok tt, s).

Section Script.
Context {U : Unicode} {H E : Type} {HostHE : Host H E}.

(** [send_telegram_notification(message)].  The [Notified] and [Posted]
    events are the record of the call itself and of the HTTP request; they
    are not statements of the script. *)
Definition send_telegram_notification (cfg : Config) (message : pystr)
  : M (World H) unit :=
  emit (Notified message) ;;
  if str_eqb (TELEGRAM_BOT_TOKEN cfg) (lit "YOUR_BOT_TOKEN_HERE")
     || str_eqb (TELEGRAM_CHAT_ID cfg) (lit "YOUR_CHAT_ID_HERE")
  then
    print (lit "--- TELEGRAM ERROR: Please set your TELEGRAM_BOT_TOKEN and TELEGRAM_CHAT_ID. ---")
  else
    let api_url :=
      lit "https://api.telegram.org/bot" ++ TELEGRAM_BOT_TOKEN cfg
        ++ lit "/sendMessage" in
    let payload := {|
      chat_id := TELEGRAM_CHAT_ID cfg;
      text := message;
      parse_mode := lit "Markdown";
      disable_web_page_preview := true
    |} in
    try_except is_RequestException
      (emit (Posted api_url payload) ;;
       response <- call (requests_post api_url payload) ;;
       raise_for_status response ;;
       print (lit "--- Notification sent successfully to Telegram! ---"))
      (fun e =>
         print (lit "--- ERROR sending notification: " ++ exn_str e
                  ++ lit " ---")).

(** The [try] block of [check_specific_item_price_selenium].  The local is
    the dictionary, which the block updates in place. *)
Definition check_try_block (product_url : pystr)
  : M (product_details * World H) product_details :=
  outer (call (driver_get product_url)) ;;
  title_element <-
    outer (call (wait_until_presence 15 CSS_SELECTOR (lit "h1.fr-head"))) ;;
  title <- outer (call (element_text title_element)) ;;
  update_local (set_name title) ;;
  price_elements <-
    outer (call (driver_find_elements CLASS_NAME (lit "fr-price-currency"))) ;;
  match price_elements with
  | e0 :: e1 :: _ =>
      t0 <- outer (call (element_text e0)) ;;
      t1 <- outer (call (element_text e1)) ;;
      let original_price_text := strip t0 in
      let sale_price_text := strip t1 in
      if truthy original_price_text && truthy sale_price_text
      then
        update_local (set_is_on_sale true) ;;
        update_local (set_original_price (Some original_price_text)) ;;
        update_local (set_current_price sale_price_text)
      else ret tt
  | [e0] =>
      t0 <- outer (call (element_text e0)) ;;
      update_local (set_current_price (strip t0))
  | [] => ret tt
  end ;;
  get_local.

(** [check_specific_item_price_selenium(product_url, driver)]: the handler
    prints the error and returns the dictionary as the block left it. *)
Definition check_specific_item_price_selenium (product_url : pystr)
  : M (World H) product_details :=
  with_local (initial_details product_url)
    (try_except is_Exception
       (check_try_block product_url)
       (fun e =>
          outer (print (lit "      -> An error occurred while checking "
                          ++ product_url ++ lit ": " ++ exn_str e)) ;;
          get_local)).

(** The [for i, url in enumerate(PRODUCT_URLS)] loop of [main], from
    index [i] on; [total] is [len(PRODUCT_URLS)]. *)
Fixpoint check_products (total i : nat) (urls : list pystr)
  (sale_items : list product_details) : M (World H) (list product_details) :=
  match urls with
  | [] => ret sale_items
  | product_url :: rest =>
      print (lit "Checking item " ++ str_of_nat (i + 1) ++ lit "/"
               ++ str_of_nat total ++ lit ": " ++ product_url) ;;
      item_details <- check_specific_item_price_selenium product_url ;;
      (* [item_details and ...]: a dictionary with five keys is truthy *)
      let sale_items :=
        if is_on_sale item_details
        then sale_items ++ [item_details]
        else sale_items in
      effect (time_sleep 2) ;;
      check_products total (S i) rest sale_items
  end.

(** The flame emoji of the title, as the source file spells it: the four
    code points U+00F0 U+0178 U+201D U+00A5. *)
Definition FLAME : pystr := [240; 376; 8221; 165]%N.

Definition message_title (sale_items : list product_details) : pystr :=
  FLAME ++ lit " *Uniqlo Sale Alert!* " ++ FLAME ++ NL ++ NL
    ++ lit "You have " ++ str_of_nat (List.length sale_items)
    ++ lit " item(s) on sale:" ++ NL.

Definition detail_line (item : product_details) : pystr :=
  let app_link := convert_to_app_link (url item) in
  NL ++ lit "*" ++ name item ++ lit "*" ++ NL
    ++ lit "Now *" ++ current_price item ++ lit "* (was ~"
    ++ format_optional (original_price item) ++ lit "~)" ++ NL
    ++ lit "[Tap to open in app](" ++ app_link ++ lit ")".

(** The [for item in sale_items] loop of [main]. *)
Fixpoint collect_details (sale_items : list product_details)
  (message_details : list pystr) : list pystr :=
  match sale_items with
  | [] => message_details
  | item :: rest => collect_details rest (message_details ++ [detail_line item])
  end.

Definition final_message (sale_items : list product_details) : pystr :=
  message_title sale_items ++ join NL (collect_details sale_items []).

Definition CHROME_OPTIONS : list pystr :=
  [lit "--headless"; lit "--disable-gpu"; lit "--log-level=3"].

(** [main()] *)
Definition main (cfg : Config) : M (World H) unit :=
  now <- ask time_ctime ;;
  print (lit "[" ++ now ++ lit "] Starting multi-item price check for "
           ++ str_of_nat (List.length (PRODUCT_URLS cfg)) ++ lit " products...") ;;
  call (webdriver_Chrome CHROME_OPTIONS) ;;
  sale_items <-
    check_products (List.length (PRODUCT_URLS cfg)) 0 (PRODUCT_URLS cfg) [] ;;
  effect driver_quit ;;
  match sale_items with
  | _ :: _ =>
      print (NL ++ lit "Found " ++ str_of_nat (List.length sale_items)
               ++ lit " item(s) on sale! Preparing summary notification...") ;;
      send_telegram_notification cfg (final_message sale_items)
  | [] =>
      print (NL ++ lit "Finished check. No items are on sale today.")
  end ;;
  now' <- ask time_ctime ;;
  print (lit "[" ++ now' ++ lit "] Price check complete.").

End Script.

(* ------------------------------------------------------------------ *)
(** * A scripted host

    A stand-in for the browser and the network that answers from a table:
    each page says how its navigation ends, what the title wait gives and
    what the price query gives; an element handle is the outcome of reading
    its text. *)

Record Page : Type := mkPage {
  page_load : result unit;
  page_title : result (result pystr);
  page_prices : result (list (result pystr))
}.

Record Scripted : Type := mkScripted {
  site : list (pystr * Page);
  current : option Page;
  chrome : result unit;
  telegram : result Response;
  clock : pystr
}.

Fixpoint lookup_page (u : pystr) (pages : list (pystr * Page)) : option Page :=
  match pages with
  | [] => None
  | (k, p) :: rest => if str_eqb k u then Some p else lookup_page u rest
  end.

Definition show (p : option Page) (h : Scripted) : Scripted :=
  mkScripted (site h) p (chrome h) (telegram h) (clock h).

Definition scripted_get (u : pystr) (h : Scripted) : result unit * Scripted :=
  match lookup_page u (site h) with
  | Some p =>
      match page_load p with
      | Ok _ => (Ok tt, show (Some p) h)
      | Raise e => (Raise e, h)
      end
  | None => (Raise (WebDriverException (lit "net::ERR_NAME_NOT_RESOLVED")), h)
  end.

Definition scripted_wait (timeout : nat) (by_ : By) (selector : pystr)
  (h : Scripted) : result (result pystr) * Scripted :=
  match current h, by_ with
  | Some p, CSS_SELECTOR =>
      if str_eqb selector (lit "h1.fr-head") then (page_title p, h)
      else (Raise (WebDriverException (lit "timeout")), h)
  | _, _ => (Raise (WebDriverException (lit "timeout")), h)
  end.

Definition scripted_find (by_ : By) (selector : pystr) (h : Scripted)
  : result (list (result pystr)) * Scripted :=
  match current h, by_ with
  | Some p, CLASS_NAME =>
      if str_eqb selector (lit "fr-price-currency") then (page_prices p, h)
      else (Ok [], h)
  | _, _ => (Ok [], h)
  end.

#[export] Instance scripted_host : Host Scripted (result pystr) := {
  webdriver_Chrome := fun _ h => (chrome h, h);
  driver_get := scripted_get;
  wait_until_presence := scripted_wait;
  driver_find_elements := scripted_find;
  element_text := fun e h => (e, h);
  driver_quit := show None;
  requests_post := fun _ _ h => (telegram h, h);
  time_ctime := clock;
  time_sleep := fun _ h => h
}.

(** A page that loads and shows a title and the given price texts. *)
Definition product_page (title : string) (prices : list pystr) : Page :=
  mkPage (Ok tt) (Ok (Ok (lit title))) (Ok (map Ok prices)).

Definition scripted_world (pages : list (pystr * Page)) : World Scripted :=
  mkWorld
    (mkScripted pages None (Ok tt)
       (Ok (mkResponse 200 (lit "OK")
              (lit "https://api.telegram.org/bot123456:ABC/sendMessage")))
       (lit "Tue Nov  3 19:37:00 2026"))
    [].

(** A leading no-break space of the page reaches [.text] as a space. *)
Definition padded_prices_page : Page :=
  product_page "AIRism Cotton T-Shirt" [lit " 299.000"; lit "199.000 "].

Definition padded_price_page : Page :=
  product_page "AIRism Cotton T-Shirt" [lit " 299.000"].

(** The title is there, the price query meets a dead session. *)
Definition broken_query_page : Page :=
  mkPage (Ok tt) (Ok (Ok (lit "AIRism Cotton T-Shirt")))
    (Raise (WebDriverException (lit "invalid session id"))).

Definition timeout_page : Page :=
  mkPage (Ok tt) (Raise (WebDriverException (lit "timeout"))) (Ok []).

Definition WEB_PREFIX : pystr := lit "https://www.uniqlo.com/id/id/products/".

Definition URL1 : pystr :=
  lit "https://www.uniqlo.com/id/id/products/E479169-000?colorCode=COL09&sizeCode=SMA007".
Definition URL2 : pystr :=
  lit "https://www.uniqlo.com/id/id/products/E474437-000?colorCode=COL00&sizeCode=SMA007".
Definition URL3 : pystr :=
  lit "https://www.uniqlo.com/id/id/products/E478913-000?colorCode=COL00&sizeCode=SMA006".

(** Three products: regular price, on sale, regular price. *)
Definition three_products : list (pystr * Page) :=
  [ (URL1, product_page "Sweat Pants" [lit "399.000"]);
    (URL2, product_page "AIRism Cotton T-Shirt" [lit "299.000"; lit "199.000"]);
    (URL3, product_page "Fleece Jacket" [lit "499.000"]) ].

(** Worlds with a single page behind [URL2]. *)
Definition padded_prices_world : World Scripted :=
  scripted_world [(URL2, padded_prices_page)].

Definition padded_price_world : World Scripted :=
  scripted_world [(URL2, padded_price_page)].

Definition broken_query_world : World Scripted :=
  scripted_world [(URL2, broken_query_page)].

Definition timeout_world : World Scripted :=
  scripted_world [(URL2, timeout_page)].

(** No price element; a second price that is only white space; a third
    price element. *)
Definition no_price_world : World Scripted :=
  scripted_world [(URL2, product_page "AIRism Cotton T-Shirt" [])].

Definition blank_price_world : World Scripted :=
  scripted_world
    [(URL2, product_page "AIRism Cotton T-Shirt" [lit "299.000"; lit "  "])].

Definition three_prices_world : World Scripted :=
  scripted_world
    [(URL2, product_page "AIRism Cotton T-Shirt"
              [lit "299.000"; lit "199.000"; lit "99.000"])].

(** Three price elements of which the second is blank, or of which the
    first or the second cannot be read. *)
Definition three_prices_blank_world : World Scripted :=
  scripted_world
    [(URL2, product_page "AIRism Cotton T-Shirt"
              [lit "299.000"; lit "  "; lit "99.000"])].

Definition STALE : exn :=
  WebDriverException (lit "stale element reference").

Definition stale_first_price_world : World Scripted :=
  scripted_world
    [(URL2, mkPage (Ok tt) (Ok (Ok (lit "AIRism Cotton T-Shirt")))
              (Ok [Raise STALE; Ok (lit "199.000"); Ok (lit "99.000")]))].

Definition stale_second_price_world : World Scripted :=
  scripted_world
    [(URL2, mkPage (Ok tt) (Ok (Ok (lit "AIRism Cotton T-Shirt")))
              (Ok [Ok (lit "299.000"); Raise STALE; Ok (lit "99.000")]))].

(** The host once the page behind [URL2] is displayed. *)
Definition on_page (w : World Scripted) : Scripted :=
  show (lookup_page URL2 (site (host w))) (host w).

Definition three_config : Config :=
  mkConfig (lit "123456:ABC") (lit "42") [URL1; URL2; URL3].

(* ------------------------------------------------------------------ *)
(** * Vocabulary of the properties *)

(** [id] occurs in [u] after the prefix [pre]. *)
Definition occurs_at (pre id u : pystr) : Prop :=
  exists post, u = pre ++ id ++ post.

(** ASCII uppercase letters. *)
Definition is_upper (c : N) : bool := N.leb 65 c && N.leb c 90.

Section Vocabulary.
Context {U : Unicode} {H E : Type} {HostHE : Host H E}.

(** The shape of an identifier with a given class for its first character:
    that character, six decimal digits, a hyphen, three decimal digits. *)
Definition id_shape (first : N -> bool) (s : pystr) : bool :=
  match s with
  | [c; d1; d2; d3; d4; d5; d6; hy; d7; d8; d9] =>
      first c && isdecimal d1 && isdecimal d2 && isdecimal d3
        && isdecimal d4 && isdecimal d5 && isdecimal d6 && N.eqb 45 hy
        && isdecimal d7 && isdecimal d8 && isdecimal d9
  | _ => false
  end.

(** The identifiers that the pattern of the script matches: they start
    with the letter E. *)
Definition is_product_id (s : pystr) : bool := id_shape (N.eqb 69) s.

(** The identifiers as the specification describes them: they start with
    any uppercase letter. *)
Definition is_spec_id (s : pystr) : bool := id_shape is_upper s.

(** The extraction reaches the price elements: navigation, the title wait,
    the reading of the title and the price query succeed, in this order;
    [title] is the title text, [price_elements] the answer of the query and
    [h'] the state of the host after it. *)
Definition page_yields (product_url : pystr) (h : H) (title : pystr)
  (price_elements : list E) (h' : H) : Prop :=
  exists h1 h2 h3 title_element,
    driver_get product_url h = (Ok tt, h1) /\
    wait_until_presence 15 CSS_SELECTOR (lit "h1.fr-head") h1
      = (Ok title_element, h2) /\
    element_text title_element h2 = (Ok title, h3) /\
    driver_find_elements CLASS_NAME (lit "fr-price-currency") h3
      = (Ok price_elements, h').

(** The extraction fails: the first host operation that raises, raises [e]
    and leaves the host in [h'].  The index [read] is the title text when
    the title had been read before the failure. *)
Inductive fails (product_url : pystr) (h : H)
  : option pystr -> exn -> H -> Prop :=
| fails_navigation e h1 :
    driver_get product_url h = (Raise e, h1) ->
    fails product_url h None e h1
| fails_title_wait e h1 h2 :
    driver_get product_url h = (Ok tt, h1) ->
    wait_until_presence 15 CSS_SELECTOR (lit "h1.fr-head") h1
      = (Raise e, h2) ->
    fails product_url h None e h2
| fails_title_text e h1 h2 h3 title_element :
    driver_get product_url h = (Ok tt, h1) ->
    wait_until_presence 15 CSS_SELECTOR (lit "h1.fr-head") h1
      = (Ok title_element, h2) ->
    element_text title_element h2 = (Raise e, h3) ->
    fails product_url h None e h3
| fails_price_query e h1 h2 h3 h4 title_element title :
    driver_get product_url h = (Ok tt, h1) ->
    wait_until_presence 15 CSS_SELECTOR (lit "h1.fr-head") h1
      = (Ok title_element, h2) ->
    element_text title_element h2 = (Ok title, h3) ->
    driver_find_elements CLASS_NAME (lit "fr-price-currency") h3
      = (Raise e, h4) ->
    fails product_url h (Some title) e h4
| fails_only_price_text e h4 h5 title e0 :
    page_yields product_url h title [e0] h4 ->
    element_text e0 h4 = (Raise e, h5) ->
    fails product_url h (Some title) e h5
| fails_first_price_text e h4 h5 title e0 e1 others :
    page_yields product_url h title (e0 :: e1 :: others) h4 ->
    element_text e0 h4 = (Raise e, h5) ->
    fails product_url h (Some title) e h5
| fails_second_price_text e h4 h5 h6 title e0 e1 others t0 :
    page_yields product_url h title (e0 :: e1 :: others) h4 ->
    element_text e0 h4 = (Ok t0, h5) ->
    element_text e1 h5 = (Raise e, h6) ->
    fails product_url h (Some title) e h6.

(** The snapshot that a failed extraction returns. *)
Definition degraded_details (product_url : pystr) (read : option pystr)
  : product_details := {|
  name := match read with Some title => title | None => NAME_NOT_FOUND end;
  current_price := PRICE_NOT_FOUND;
  is_on_sale := false;
  original_price := None;
  url := product_url
|}.

(** The line that the handler prints. *)
Definition error_line (product_url : pystr) (e : exn) : pystr :=
  lit "      -> An error occurred while checking " ++ product_url
    ++ lit ": " ++ exn_str e.

(** The data-model invariant of a snapshot for the query [product_url]. *)
Definition snapshot_invariant (product_url : pystr) (d : product_details)
  : Prop :=
  (original_price d <> None <-> is_on_sale d = true) /\ url d = product_url.

(** The progress line of the loop of [main]. *)
Definition progress_line (total i : nat) (product_url : pystr) : pystr :=
  lit "Checking item " ++ str_of_nat (i + 1) ++ lit "/" ++ str_of_nat total
    ++ lit ": " ++ product_url.

(** The snapshots that the extractor returns during the loop of [main],
    one per query and in the order of the calls; the world is threaded as
    the loop threads it: progress line, extraction, pause. *)
Fixpoint loop_snapshots (total i : nat) (urls : list pystr) (w : World H)
  : list product_details :=
  match urls with
  | [] => []
  | product_url :: rest =>
      let w1 := snd (print (progress_line total i product_url) w) in
      match check_specific_item_price_selenium product_url w1 with
      | (Ok d, w2) =>
          d :: loop_snapshots total (S i) rest
                 (snd (effect (time_sleep 2) w2))
      | (Raise _, _) => []
      end
  end.

Definition start_line (cfg : Config) (w : World H) : pystr :=
  lit "[" ++ time_ctime (host w) ++ lit "] Starting multi-item price check for "
    ++ str_of_nat (List.length (PRODUCT_URLS cfg)) ++ lit " products...".

(** The snapshots extracted by a run of [main]: none when Chrome does not
    start. *)
Definition run_snapshots (cfg : Config) (w : World H) : list product_details :=
  let w0 := snd (print (start_line cfg w) w) in
  match call (webdriver_Chrome CHROME_OPTIONS) w0 with
  | (Ok _, w1) =>
      loop_snapshots (List.length (PRODUCT_URLS cfg)) 0 (PRODUCT_URLS cfg) w1
  | (Raise _, _) => []
  end.

(** The sale snapshot with the given name, current price, original price
    and query URL. *)
Definition sale_snapshot (row : pystr * pystr * pystr * pystr)
  : product_details :=
  match row with
  | (n, c, o, u) => mkDetails n c true (Some o) u
  end.

(** The header of the message: the title line, a blank line, and the line
    that states the count. *)
Definition header (count : nat) : pystr :=
  FLAME ++ lit " *Uniqlo Sale Alert!* " ++ FLAME ++ NL ++ NL
    ++ lit "You have " ++ str_of_nat count ++ lit " item(s) on sale:".

(** The block of one item: three lines. *)
Definition block (row : pystr * pystr * pystr * pystr) : pystr :=
  match row with
  | (n, c, o, u) =>
      lit "*" ++ n ++ lit "*" ++ NL
        ++ lit "Now *" ++ c ++ lit "* (was ~" ++ o ++ lit "~)" ++ NL
        ++ lit "[Tap to open in app](" ++ convert_to_app_link u ++ lit ")"
  end.

End Vocabulary.

(** The messages handed to the notifier, and the HTTP posts, of a trace. *)
Fixpoint notified (tr : list Event) : list pystr :=
  match tr with
  | [] => []
  | Notified m :: tr' => m :: notified tr'
  | _ :: tr' => notified tr'
  end.

Fixpoint posted (tr : list Event) : list (pystr * Payload) :=
  match tr with
  | [] => []
  | Posted u p :: tr' => (u, p) :: posted tr'
  | _ :: tr' => posted tr'
  end.

(* ------------------------------------------------------------------ *)
(** * Properties of the link transformer *)

(** ** Vocabulary of the notifier and of the run *)

(** Both credentials have been set. *)
Definition configured (cfg : Config) : Prop :=
  TELEGRAM_BOT_TOKEN cfg <> BOT_TOKEN_PLACEHOLDER /\
  TELEGRAM_CHAT_ID cfg <> CHAT_ID_PLACEHOLDER.

Definition credentials_set (cfg : Config) : bool :=
  negb (str_eqb (TELEGRAM_BOT_TOKEN cfg) BOT_TOKEN_PLACEHOLDER)
  && negb (str_eqb (TELEGRAM_CHAT_ID cfg) CHAT_ID_PLACEHOLDER).

(** The endpoint and the body of the request for a message. *)
Definition telegram_api_url (cfg : Config) : pystr :=
  lit "https://api.telegram.org/bot" ++ TELEGRAM_BOT_TOKEN cfg
    ++ lit "/sendMessage".

Definition telegram_payload (cfg : Config) (message : pystr) : Payload := {|
  chat_id := TELEGRAM_CHAT_ID cfg;
  text := message;
  parse_mode := lit "Markdown";
  disable_web_page_preview := true
|}.

Definition SENT_LINE : pystr :=
  lit "--- Notification sent successfully to Telegram! ---".

Definition send_error_line (msg : pystr) : pystr :=
  lit "--- ERROR sending notification: " ++ msg ++ lit " ---".

(** An HTTP status for which [raise_for_status] raises. *)
Definition is_error_status (code : nat) : bool :=
  (400 <=? code) && (code <? 600).

(** A string without white space at either end. *)
Definition trimmed {U : Unicode} (s : pystr) : Prop := strip s = s.

(** Scripted worlds in which Chrome does not start, or Telegram answers
    as given. *)
Definition without_chrome (e : exn) (w : World Scripted) : World Scripted :=
  mkWorld
    (mkScripted (site (host w)) (current (host w)) (Raise e)
       (telegram (host w)) (clock (host w)))
    (trace w).

Definition with_telegram (r : result Response) (w : World Scripted)
  : World Scripted :=
  mkWorld
    (mkScripted (site (host w)) (current (host w)) (chrome (host w)) r
       (clock (host w)))
    (trace w).

Definition CHROME_NOT_FOUND : exn :=
  WebDriverException (lit "unable to obtain driver for chrome").

Definition FORBIDDEN : Response :=
  mkResponse 403 (lit "Forbidden")
    (lit "https://api.telegram.org/bot123456:ABC/sendMessage").

Definition NOT_SERIALIZABLE : exn :=
  OtherException (lit "Object is not JSON serializable").

Definition CONNECTION_ERROR : exn :=
  RequestException (lit "Connection aborted.").

(** The first product page fails to load, the second is on sale. *)
Definition failing_then_sale : list (pystr * Page) :=
  [ (URL1, timeout_page);
    (URL2, product_page "AIRism Cotton T-Shirt" [lit "299.000"; lit "199.000"]) ].

Unset Implicit Arguments.

Section LinkProperties.
Context {U : Unicode}.

Lemma match_here_matches (p : list cclass) (s m : pystr) :
  match_here p s = Some m ->
  matches p m = true /\ exists post, s = m ++ post.
Proof.
  revert s m.
  induction p as [|k p IH]; intros s m Hm; simpl in Hm.
  - inversion Hm; subst. split; [reflexivity | now exists s].
  - destruct s as [|c s]; [discriminate|].
    destruct (cmatch k c) eqn:Hk; [|discriminate].
    destruct (match_here p s) as [m'|] eqn:Hrec; [|discriminate].
    inversion Hm; subst.
    destruct (IH _ _ Hrec) as [Hfull [post ->]].
    split.
    + simpl. now rewrite Hk, Hfull.
    + now exists post.
Qed.

Lemma matches_match_here (p : list cclass) (m post : pystr) :
  matches p m = true -> match_here p (m ++ post) = Some m.
Proof.
  revert m.
  induction p as [|k p IH]; intros [|c m] Hm; simpl in *;
    try discriminate; try reflexivity.
  apply andb_true_iff in Hm as [Hk Hrest].
  now rewrite Hk, (IH _ Hrest).
Qed.

Lemma is_product_id_matches (s : pystr) :
  is_product_id s = matches product_id_pattern s.
Proof.
  unfold is_product_id, id_shape, product_id_pattern.
  do 12 (destruct s as [|? s]; simpl;
         rewrite ?andb_false_r, ?andb_true_r, ?andb_assoc; try reflexivity).
Qed.

Lemma first_char_mismatch (c : N) (p : list cclass) (s : pystr) (a : N) :
  a <> c -> match_here (Lit a :: p) (c :: s) = None.
Proof.
  intros Hne. simpl.
  destruct (N.eqb a c) eqn:Heq; [|reflexivity].
  apply N.eqb_eq in Heq. contradiction.
Qed.

Lemma re_search_here (p : list cclass) (s m : pystr) :
  match_here p s = Some m -> re_search p s = Some m.
Proof.
  intros Hm. destruct s; simpl; now rewrite Hm.
Qed.

(** What [re.search] returns is a full match that occurs in the input, and
    no match starts before it. *)
Lemma re_search_some (p : list cclass) (s m : pystr) :
  re_search p s = Some m ->
  exists pre post,
    s = pre ++ m ++ post /\ matches p m = true /\
    forall pre' m', occurs_at pre' m' s -> matches p m' = true ->
                    List.length pre <= List.length pre'.
Proof.
  revert m.
  induction s as [|c s IH]; intros m Hs; simpl in Hs.
  - destruct (match_here p []) as [m0|] eqn:Hm; [|discriminate].
    inversion Hs; subst.
    destruct (match_here_matches _ _ _ Hm) as [Hfull [post Hpost]].
    exists [], post. repeat split; auto. simpl. intros; lia.
  - destruct (match_here p (c :: s)) as [m0|] eqn:Hm.
    + inversion Hs; subst.
      destruct (match_here_matches _ _ _ Hm) as [Hfull [post Hpost]].
      exists [], post. repeat split; auto. simpl. intros; lia.
    + destruct (IH _ Hs) as (pre & post & -> & Hfull & Hleft).
      exists (c :: pre), post. repeat split; auto.
      intros pre' m' [post' Hocc] Hm'.
      destruct pre' as [|c' pre'].
      * simpl in Hocc. rewrite Hocc in Hm.
        rewrite (matches_match_here _ _ post' Hm') in Hm. discriminate.
      * simpl in Hocc. inversion Hocc as [[Hc Hrest]].
        simpl. apply le_n_S. apply (Hleft pre' m'); auto.
        now exists post'.
Qed.

Lemma re_search_none (p : list cclass) (s : pystr) :
  re_search p s = None ->
  forall pre m, occurs_at pre m s -> matches p m = false.
Proof.
  induction s as [|c s IH]; intros Hs pre m [post Hocc]; simpl in Hs.
  - destruct (match_here p []) eqn:Hm; [discriminate|].
    destruct pre; [|discriminate]. simpl in Hocc.
    destruct (matches p m) eqn:Hfull; [|reflexivity].
    rewrite Hocc, (matches_match_here _ _ post Hfull) in Hm. discriminate.
  - destruct (match_here p (c :: s)) eqn:Hm; [discriminate|].
    destruct pre as [|c' pre]; simpl in Hocc.
    + destruct (matches p m) eqn:Hfull; [|reflexivity].
      rewrite Hocc, (matches_match_here _ _ post Hfull) in Hm. discriminate.
    + inversion Hocc as [[Hc Hrest]].
      apply (IH Hs pre). now exists post.
Qed.

Lemma re_search_leftmost (p : list cclass) (pre m post : pystr) :
  matches p m = true ->
  (forall pre' m', occurs_at pre' m' (pre ++ m ++ post) ->
                   matches p m' = true ->
                   List.length pre <= List.length pre') ->
  re_search p (pre ++ m ++ post) = Some m.
Proof.
  intros Hfull Hleft.
  destruct (re_search p (pre ++ m ++ post)) as [m0|] eqn:Hs.
  - destruct (re_search_some _ _ _ Hs) as (pre0 & post0 & Heq & Hfull0 & Hleft0).
    assert (Hlen : List.length pre0 = List.length pre).
    { apply Nat.le_antisymm.
      - apply (Hleft0 pre m); [now exists post | assumption].
      - apply (Hleft pre0 m0); [now exists post0 | assumption]. }
    assert (Hm : match_here p (m ++ post) = Some m)
      by now apply matches_match_here.
    assert (Hm0 : match_here p (m0 ++ post0) = Some m0)
      by now apply matches_match_here.
    assert (Htail : m ++ post = m0 ++ post0).
    { clear - Heq Hlen. revert pre0 Heq Hlen.
      induction pre as [|c pre IH]; intros [|c0 pre0] Heq Hlen;
        simpl in *; try discriminate; auto.
      inversion Heq. inversion Hlen. eauto. }
    rewrite Htail in Hm. congruence.
  - rewrite (re_search_none _ _ Hs pre m) in Hfull; [discriminate|].
    now exists post.
Qed.

Lemma re_search_no_occurrence (p : list cclass) (s : pystr) :
  (forall pre m, occurs_at pre m s -> matches p m = false) ->
  re_search p s = None.
Proof.
  intros Hnone.
  destruct (re_search p s) as [m|] eqn:Hs; [|reflexivity].
  destruct (re_search_some _ _ _ Hs) as (pre & post & Heq & Hfull & _).
  rewrite (Hnone pre m) in Hfull; [discriminate|].
  now exists post.
Qed.

(** Behind a prefix without the letter E, the search finds the identifier
    that follows. *)
Lemma re_search_behind_prefix (pre m : pystr) :
  forallb (fun c => negb (N.eqb 69 c)) pre = true ->
  matches product_id_pattern m = true ->
  re_search product_id_pattern (pre ++ m) = Some m.
Proof.
  intros Hpre Hfull.
  induction pre as [|c pre IH].
  - simpl app. apply re_search_here.
    rewrite <- (app_nil_r m) at 1. now apply matches_match_here.
  - simpl in Hpre. apply andb_true_iff in Hpre as [Hc Hrest].
    simpl app. cbn [re_search].
    unfold product_id_pattern at 1.
    rewrite first_char_mismatch.
    + now apply IH.
    + intros Heq. subst c. discriminate Hc.
Qed.

Lemma convert_to_app_link_idempotent (u : pystr) :
  convert_to_app_link (convert_to_app_link u) = convert_to_app_link u.
Proof.
  unfold convert_to_app_link at 2 3.
  destruct (re_search product_id_pattern u) as [m|] eqn:Hs.
  - destruct (re_search_some _ _ _ Hs) as (pre & post & _ & Hfull & _).
    unfold convert_to_app_link.
    rewrite re_search_behind_prefix; auto.
  - unfold convert_to_app_link. now rewrite Hs.
Qed.

Lemma is_product_id_is_spec_id (s : pystr) :
  is_product_id s = true -> is_spec_id s = true.
Proof.
  unfold is_product_id, is_spec_id, id_shape.
  do 12 (destruct s as [|? s]; try discriminate).
  intros Hid.
  repeat (apply andb_true_iff in Hid as [Hid ?]).
  apply N.eqb_eq in Hid. subst.
  repeat (apply andb_true_iff; split); auto.
Qed.

(** C5 (amended): when the input contains an identifier of the shape E, six
    digits, a hyphen, three digits, [convert_to_app_link] returns the fixed
    prefix followed by the leftmost such identifier and nothing else; when
    the input contains no such identifier, it returns its input. *)
Theorem convert_to_app_link_leftmost_id (u : pystr) :
  ((exists pre id, occurs_at pre id u /\ is_product_id id = true) ->
   exists pre id,
     occurs_at pre id u /\ is_product_id id = true /\
     (forall pre' id', occurs_at pre' id' u -> is_product_id id' = true ->
                       List.length pre <= List.length pre') /\
     convert_to_app_link u = app_link_prefix ++ id) /\
  ((forall pre id, occurs_at pre id u -> is_product_id id = false) ->
   convert_to_app_link u = u).
Proof.
  unfold convert_to_app_link. split.
  - intros (pre0 & id0 & Hocc0 & Hid0).
    destruct (re_search product_id_pattern u) as [m|] eqn:Hs.
    + destruct (re_search_some _ _ _ Hs) as (pre & post & Heq & Hfull & Hleft).
      exists pre, m. repeat split.
      * now exists post.
      * now rewrite is_product_id_matches.
      * intros pre' id' Hocc' Hid'. apply (Hleft pre' id' Hocc').
        now rewrite <- is_product_id_matches.
    + rewrite is_product_id_matches in Hid0.
      now rewrite (re_search_none _ _ Hs pre0 id0 Hocc0) in Hid0.
  - intros Hnone. rewrite re_search_no_occurrence; [reflexivity|].
    intros pre m Hocc. rewrite <- is_product_id_matches. eauto.
Qed.

(** C9: on every input that contains a product identifier,
    [convert_to_app_link] applied to its own output returns that output.
    The identifier is taken in the wide sense of the specification (any
    uppercase first letter), which includes the identifiers of the
    pattern. *)
Theorem convert_to_app_link_idempotent_on_ids (u : pystr) :
  (exists pre id, occurs_at pre id u /\ is_spec_id id = true) ->
  convert_to_app_link (convert_to_app_link u) = convert_to_app_link u.
Proof.
  intros _. apply convert_to_app_link_idempotent.
Qed.

End LinkProperties.

Lemma occurs_at_intro (pre id post u : pystr) :
  u = pre ++ id ++ post -> occurs_at pre id u.
Proof.
  intros Heq. now exists post.
Qed.

(** C5, as stated, fails on an identifier that starts with another letter
    than E: the input contains [A479169-000], of the shape that the
    specification describes, and comes back unchanged, which is no deep
    link at all. *)
Lemma convert_to_app_link_other_letter :
  occurs_at WEB_PREFIX (lit "A479169-000")
    (WEB_PREFIX ++ lit "A479169-000" ++ lit "?colorCode=COL09") /\
  is_spec_id (lit "A479169-000") = true /\
  convert_to_app_link (WEB_PREFIX ++ lit "A479169-000" ++ lit "?colorCode=COL09")
    = WEB_PREFIX ++ lit "A479169-000" ++ lit "?colorCode=COL09" /\
  (forall id,
     convert_to_app_link
       (WEB_PREFIX ++ lit "A479169-000" ++ lit "?colorCode=COL09")
     <> app_link_prefix ++ id).
Proof.
  split; [|split; [|split]].
  - now apply occurs_at_intro with (post := lit "?colorCode=COL09").
  - vm_compute. reflexivity.
  - vm_compute. reflexivity.
  - intros id Heq. vm_compute in Heq. discriminate Heq.
Qed.

Lemma convert_to_app_link_leftmost_id_witness :
  (exists pre id,
     occurs_at pre id
       (WEB_PREFIX ++ lit "E479169-000" ++ lit "?colorCode=COL09") /\
     is_product_id id = true /\
     (forall pre' id',
        occurs_at pre' id'
          (WEB_PREFIX ++ lit "E479169-000" ++ lit "?colorCode=COL09") ->
        is_product_id id' = true ->
        List.length pre <= List.length pre') /\
     convert_to_app_link
       (WEB_PREFIX ++ lit "E479169-000" ++ lit "?colorCode=COL09")
     = app_link_prefix ++ id) /\
  convert_to_app_link (lit "https://site/no-id-here")
    = lit "https://site/no-id-here".
Proof.
  split.
  - apply (proj1 (convert_to_app_link_leftmost_id
                    (WEB_PREFIX ++ lit "E479169-000" ++ lit "?colorCode=COL09"))).
    exists WEB_PREFIX, (lit "E479169-000"). split.
    + now apply occurs_at_intro with (post := lit "?colorCode=COL09").
    + vm_compute. reflexivity.
  - apply (proj2 (convert_to_app_link_leftmost_id
                    (lit "https://site/no-id-here"))).
    intros pre id Hocc. rewrite is_product_id_matches.
    refine (re_search_none product_id_pattern (lit "https://site/no-id-here")
              _ pre id Hocc).
    vm_compute. reflexivity.
Defined.

Lemma convert_to_app_link_idempotent_on_ids_witness :
  convert_to_app_link
    (convert_to_app_link
       (WEB_PREFIX ++ lit "E479169-000" ++ lit "?colorCode=COL09"))
  = convert_to_app_link
      (WEB_PREFIX ++ lit "E479169-000" ++ lit "?colorCode=COL09").
Proof.
  apply convert_to_app_link_idempotent_on_ids.
  exists WEB_PREFIX, (lit "E479169-000"). split.
  - now apply occurs_at_intro with (post := lit "?colorCode=COL09").
  - vm_compute. reflexivity.
Defined.

(* ------------------------------------------------------------------ *)
(** * Properties of the extractor *)

Lemma truthy_nonempty (s : pystr) : truthy s = true <-> s <> [].
Proof.
  destruct s; simpl; split; intros Hs; congruence.
Qed.

Lemma truthy_empty (s : pystr) : truthy s = false <-> s = [].
Proof.
  destruct s; simpl; split; intros Hs; congruence.
Qed.

Ltac unfold_script :=
  unfold check_specific_item_price_selenium, check_try_block, with_local,
    try_except, bind, outer, call, update_local, get_local, ret, print, emit,
    is_Exception;
  cbn [fst snd host trace].

Ltac step Heq := rewrite Heq; cbn [fst snd host trace].

Ltac reach_prices Hpage :=
  let h1 := fresh "h1" in
  let h2 := fresh "h2" in
  let h3 := fresh "h3" in
  let el := fresh "el" in
  let Hget := fresh "Hget" in
  let Hwait := fresh "Hwait" in
  let Htitle := fresh "Htitle" in
  let Hfind := fresh "Hfind" in
  destruct Hpage as (h1 & h2 & h3 & el & Hget & Hwait & Htitle & Hfind);
  unfold_script; step Hget; step Hwait; step Htitle; step Hfind.

Section ExtractorProperties.
Context {U : Unicode} {H E : Type} {HostHE : Host H E}.

(** Two or more price elements, both texts non-empty once stripped. *)
Lemma check_sale (product_url title : pystr) (w : World H)
  (e0 e1 : E) (others : list E) (h4 h5 h6 : H) (t0 t1 : pystr) :
  page_yields product_url (host w) title (e0 :: e1 :: others) h4 ->
  element_text e0 h4 = (Ok t0, h5) ->
  element_text e1 h5 = (Ok t1, h6) ->
  strip t0 <> [] -> strip t1 <> [] ->
  check_specific_item_price_selenium product_url w
  = (Ok (mkDetails title (strip t1) true (Some (strip t0)) product_url),
     mkWorld h6 (trace w)).
Proof.
  intros Hpage H0 H1 Hn0 Hn1.
  reach_prices Hpage. step H0. step H1.
  apply truthy_nonempty in Hn0, Hn1. rewrite Hn0, Hn1. reflexivity.
Qed.

(** Two or more price elements, one of the first two texts empty once
    stripped. *)
Lemma check_no_sale (product_url title : pystr) (w : World H)
  (e0 e1 : E) (others : list E) (h4 h5 h6 : H) (t0 t1 : pystr) :
  page_yields product_url (host w) title (e0 :: e1 :: others) h4 ->
  element_text e0 h4 = (Ok t0, h5) ->
  element_text e1 h5 = (Ok t1, h6) ->
  strip t0 = [] \/ strip t1 = [] ->
  check_specific_item_price_selenium product_url w
  = (Ok (mkDetails title PRICE_NOT_FOUND false None product_url),
     mkWorld h6 (trace w)).
Proof.
  intros Hpage H0 H1 Hempty.
  reach_prices Hpage. step H0. step H1.
  assert (Hcond : truthy (strip t0) && truthy (strip t1) = false).
  { destruct Hempty as [-> | ->]; simpl; [reflexivity | apply andb_false_r]. }
  rewrite Hcond. reflexivity.
Qed.

Lemma check_one_price (product_url title : pystr) (w : World H)
  (e0 : E) (h4 h5 : H) (t0 : pystr) :
  page_yields product_url (host w) title [e0] h4 ->
  element_text e0 h4 = (Ok t0, h5) ->
  check_specific_item_price_selenium product_url w
  = (Ok (mkDetails title (strip t0) false None product_url),
     mkWorld h5 (trace w)).
Proof.
  intros Hpage H0. reach_prices Hpage. step H0. reflexivity.
Qed.

Lemma check_no_price (product_url title : pystr) (w : World H) (h4 : H) :
  page_yields product_url (host w) title [] h4 ->
  check_specific_item_price_selenium product_url w
  = (Ok (mkDetails title PRICE_NOT_FOUND false None product_url),
     mkWorld h4 (trace w)).
Proof.
  intros Hpage. reach_prices Hpage. reflexivity.
Qed.

(** A failed extraction returns the dictionary as the failure found it. *)
Lemma check_fails (product_url : pystr) (w : World H)
  (read : option pystr) (e : exn) (h' : H) :
  fails product_url (host w) read e h' ->
  check_specific_item_price_selenium product_url w
  = (Ok (degraded_details product_url read),
     mkWorld h' (trace w ++ [Printed (error_line product_url e)])).
Proof.
  intros Hfails.
  destruct Hfails as
    [ e h1 Hget | e h1 h2 Hget Hwait | e h1 h2 h3 el Hget Hwait Htitle
    | e h1 h2 h3 h4 el title Hget Hwait Htitle Hfind
    | e h4 h5 title e0 Hpage H0
    | e h4 h5 title e0 e1 others Hpage H0
    | e h4 h5 h6 title e0 e1 others t0 Hpage H0 H1 ].
  - unfold_script. step Hget. reflexivity.
  - unfold_script. step Hget. step Hwait. reflexivity.
  - unfold_script. step Hget. step Hwait. step Htitle. reflexivity.
  - unfold_script. step Hget. step Hwait. step Htitle. step Hfind.
    reflexivity.
  - reach_prices Hpage. step H0. reflexivity.
  - reach_prices Hpage. step H0. reflexivity.
  - reach_prices Hpage. step H0. step H1. reflexivity.
Qed.

(** Every extraction either fails at some host operation or reads the
    texts that its number of price elements asks for. *)
Lemma extraction_cases (product_url : pystr) (h : H) :
  (exists read e h', fails product_url h read e h') \/
  (exists title price_elements h4,
     page_yields product_url h title price_elements h4 /\
     match price_elements with
     | [] => True
     | [e0] => exists t0 h5, element_text e0 h4 = (Ok t0, h5)
     | e0 :: e1 :: _ =>
         exists t0 t1 h5 h6,
           element_text e0 h4 = (Ok t0, h5) /\
           element_text e1 h5 = (Ok t1, h6)
     end).
Proof.
  destruct (driver_get product_url h) as [[[]|e] h1] eqn:Hget.
  2: { left. exists None, e, h1. now apply fails_navigation. }
  destruct (wait_until_presence 15 CSS_SELECTOR (lit "h1.fr-head") h1)
    as [[el|e] h2] eqn:Hwait.
  2: { left. exists None, e, h2. now apply fails_title_wait with h1. }
  destruct (element_text el h2) as [[title|e] h3] eqn:Htitle.
  2: { left. exists None, e, h3. now apply fails_title_text with h1 h2 el. }
  destruct (driver_find_elements CLASS_NAME (lit "fr-price-currency") h3)
    as [[es|e] h4] eqn:Hfind.
  2: { left. exists (Some title), e, h4.
       now apply fails_price_query with h1 h2 h3 el. }
  assert (Hpage : page_yields product_url h title es h4)
    by (exists h1, h2, h3, el; auto).
  destruct es as [|e0 [|e1 others]].
  - right. exists title, [], h4. auto.
  - destruct (element_text e0 h4) as [[t0|e] h5] eqn:H0.
    + right. exists title, [e0], h4. split; [assumption|]. now exists t0, h5.
    + left. exists (Some title), e, h5.
      now apply fails_only_price_text with h4 e0.
  - destruct (element_text e0 h4) as [[t0|e] h5] eqn:H0.
    2: { left. exists (Some title), e, h5.
         now apply fails_first_price_text with h4 e0 e1 others. }
    destruct (element_text e1 h5) as [[t1|e] h6] eqn:H1.
    2: { left. exists (Some title), e, h6.
         now apply fails_second_price_text with h4 h5 e0 e1 others t0. }
    right. exists title, (e0 :: e1 :: others), h4. split; [assumption|].
    now exists t0, t1, h5, h6.
Qed.

(** The extractor always returns a snapshot; the snapshot satisfies the
    invariant of the data model, and the call leaves nothing in the trace
    but printed lines. *)
Lemma check_total (product_url : pystr) (w : World H) :
  exists d h' evs,
    check_specific_item_price_selenium product_url w
    = (Ok d, mkWorld h' (trace w ++ evs)) /\
    snapshot_invariant product_url d /\
    notified evs = [] /\ posted evs = [].
Proof.
  assert (Hinv_plain : forall n c,
            snapshot_invariant product_url (mkDetails n c false None product_url)).
  { intros n c. split; [|reflexivity]. simpl. split; intros Hx; congruence. }
  destruct (extraction_cases product_url (host w))
    as [(read & e & h' & Hfails) | (title & es & h4 & Hpage & Htexts)].
  - exists (degraded_details product_url read), h',
      [Printed (error_line product_url e)].
    split; [now apply check_fails|]. split; [apply Hinv_plain | auto].
  - destruct es as [|e0 [|e1 others]].
    + exists (mkDetails title PRICE_NOT_FOUND false None product_url), h4, [].
      rewrite app_nil_r. split; [now apply check_no_price|]. auto.
    + destruct Htexts as (t0 & h5 & H0).
      exists (mkDetails title (strip t0) false None product_url), h5, [].
      rewrite app_nil_r. split; [now apply check_one_price with e0 h4|]. auto.
    + destruct Htexts as (t0 & t1 & h5 & h6 & H0 & H1).
      destruct (strip t0) as [|c0 s0] eqn:Hs0.
      { exists (mkDetails title PRICE_NOT_FOUND false None product_url), h6, [].
        rewrite app_nil_r. split; [|auto].
        apply check_no_sale with e0 e1 others h4 h5 t0 t1; auto. }
      destruct (strip t1) as [|c1 s1] eqn:Hs1.
      { exists (mkDetails title PRICE_NOT_FOUND false None product_url), h6, [].
        rewrite app_nil_r. split; [|auto].
        apply check_no_sale with e0 e1 others h4 h5 t0 t1; auto. }
      exists (mkDetails title (strip t1) true (Some (strip t0)) product_url),
        h6, [].
      rewrite app_nil_r. split.
      * apply check_sale with e0 e1 others h4 h5; auto;
          rewrite ?Hs0, ?Hs1; discriminate.
      * split; [|auto]. split; [|reflexivity]. simpl.
        split; intros Hx; congruence.
Qed.

(** C1 (amended): when the page yields exactly two price elements and both
    texts are non-empty once stripped, the snapshot is on sale, its
    original price is the stripped text of the first element and its
    current price the stripped text of the second. *)
Theorem two_prices_mean_sale (product_url title : pystr) (w : World H)
  (e0 e1 : E) (h4 h5 h6 : H) (t0 t1 : pystr) :
  page_yields product_url (host w) title [e0; e1] h4 ->
  element_text e0 h4 = (Ok t0, h5) ->
  element_text e1 h5 = (Ok t1, h6) ->
  strip t0 <> [] -> strip t1 <> [] ->
  check_specific_item_price_selenium product_url w
  = (Ok {| name := title;
           current_price := strip t1;
           is_on_sale := true;
           original_price := Some (strip t0);
           url := product_url |},
     mkWorld h6 (trace w)).
Proof.
  intros Hpage H0 H1 Hn0 Hn1.
  now apply check_sale with e0 e1 [] h4 h5.
Qed.

(** C2 (amended): once the page is reached, (a) a single price element
    gives its stripped text as current price, not on sale, no original
    price; (b) no price element and (c) two price elements of which one
    text is empty once stripped leave the placeholder price, not on
    sale. *)
Theorem other_prices_mean_no_sale (product_url title : pystr) (w : World H)
  (price_elements : list E) (h4 : H) :
  page_yields product_url (host w) title price_elements h4 ->
  (forall e0 t0 h5,
     price_elements = [e0] ->
     element_text e0 h4 = (Ok t0, h5) ->
     check_specific_item_price_selenium product_url w
     = (Ok {| name := title;
              current_price := strip t0;
              is_on_sale := false;
              original_price := None;
              url := product_url |},
        mkWorld h5 (trace w))) /\
  (price_elements = [] ->
   check_specific_item_price_selenium product_url w
   = (Ok {| name := title;
            current_price := PRICE_NOT_FOUND;
            is_on_sale := false;
            original_price := None;
            url := product_url |},
      mkWorld h4 (trace w))) /\
  (forall e0 e1 t0 t1 h5 h6,
     price_elements = [e0; e1] ->
     element_text e0 h4 = (Ok t0, h5) ->
     element_text e1 h5 = (Ok t1, h6) ->
     strip t0 = [] \/ strip t1 = [] ->
     check_specific_item_price_selenium product_url w
     = (Ok {| name := title;
              current_price := PRICE_NOT_FOUND;
              is_on_sale := false;
              original_price := None;
              url := product_url |},
        mkWorld h6 (trace w))).
Proof.
  intros Hpage. repeat split.
  - intros e0 t0 h5 -> H0. now apply check_one_price with e0 h4.
  - intros ->. now apply check_no_price.
  - intros e0 e1 t0 t1 h5 h6 -> H0 H1 Hempty.
    now apply check_no_sale with e0 e1 [] h4 h5 t0 t1.
Qed.

(** C3 (amended): the extractor never raises; and when a host operation
    fails, at whatever point, it returns a snapshot with the placeholder
    price, not on sale, without original price, for the query URL, and
    prints the error.  The name of that snapshot is the placeholder when
    the failure comes before the title is read (navigation, title wait,
    title text) and the title when it comes after (price query, price
    texts). *)
Theorem failures_are_caught (product_url : pystr) (w : World H) :
  (exists d w',
     check_specific_item_price_selenium product_url w = (Ok d, w')) /\
  (forall read e h',
     fails product_url (host w) read e h' ->
     check_specific_item_price_selenium product_url w
     = (Ok {| name := match read with
                      | Some title => title
                      | None => NAME_NOT_FOUND
                      end;
              current_price := PRICE_NOT_FOUND;
              is_on_sale := false;
              original_price := None;
              url := product_url |},
        mkWorld h' (trace w ++ [Printed (error_line product_url e)]))).
Proof.
  split.
  - destruct (check_total product_url w) as (d & h' & evs & Hrun & _).
    now exists d, (mkWorld h' (trace w ++ evs)).
  - intros read e h' Hfails. now apply check_fails.
Qed.

(** C6: every snapshot that the extractor returns has an original price
    exactly when it is on sale, and carries the query URL it was asked
    for. *)
Theorem snapshots_satisfy_invariant (product_url : pystr) (w : World H) :
  exists d w',
    check_specific_item_price_selenium product_url w = (Ok d, w') /\
    (original_price d <> None <-> is_on_sale d = true) /\
    url d = product_url.
Proof.
  destruct (check_total product_url w) as (d & h' & evs & Hrun & Hinv & _).
  exists d, (mkWorld h' (trace w ++ evs)). split; [assumption|].
  exact Hinv.
Qed.

(** C10: when the page yields three or more price elements, the texts of
    the first two are read and no other, and the outcome is decided by
    these two alone, whatever the further elements are.  (a) If both texts
    are non-empty once stripped, the snapshot is on sale, with the
    original price from the first and the current price from the second.
    (b) If one of them is empty once stripped, the snapshot keeps the
    placeholder price and is not on sale.  (c, d) If the first or the
    second text cannot be read, the failure is caught and the snapshot is
    the degraded one.  In every case the host is left as the last of these
    readings left it. *)
Theorem further_prices_are_ignored (product_url title : pystr) (w : World H)
  (e0 e1 e2 : E) (others : list E) (h4 : H) :
  page_yields product_url (host w) title (e0 :: e1 :: e2 :: others) h4 ->
  (forall t0 t1 h5 h6,
     element_text e0 h4 = (Ok t0, h5) ->
     element_text e1 h5 = (Ok t1, h6) ->
     strip t0 <> [] -> strip t1 <> [] ->
     check_specific_item_price_selenium product_url w
     = (Ok {| name := title;
              current_price := strip t1;
              is_on_sale := true;
              original_price := Some (strip t0);
              url := product_url |},
        mkWorld h6 (trace w))) /\
  (forall t0 t1 h5 h6,
     element_text e0 h4 = (Ok t0, h5) ->
     element_text e1 h5 = (Ok t1, h6) ->
     strip t0 = [] \/ strip t1 = [] ->
     check_specific_item_price_selenium product_url w
     = (Ok {| name := title;
              current_price := PRICE_NOT_FOUND;
              is_on_sale := false;
              original_price := None;
              url := product_url |},
        mkWorld h6 (trace w))) /\
  (forall e h5,
     element_text e0 h4 = (Raise e, h5) ->
     check_specific_item_price_selenium product_url w
     = (Ok {| name := title;
              current_price := PRICE_NOT_FOUND;
              is_on_sale := false;
              original_price := None;
              url := product_url |},
        mkWorld h5 (trace w ++ [Printed (error_line product_url e)]))) /\
  (forall t0 e h5 h6,
     element_text e0 h4 = (Ok t0, h5) ->
     element_text e1 h5 = (Raise e, h6) ->
     check_specific_item_price_selenium product_url w
     = (Ok {| name := title;
              current_price := PRICE_NOT_FOUND;
              is_on_sale := false;
              original_price := None;
              url := product_url |},
        mkWorld h6 (trace w ++ [Printed (error_line product_url e)]))).
Proof.
  intros Hpage. repeat split.
  - intros t0 t1 h5 h6 H0 H1 Hn0 Hn1.
    now apply check_sale with e0 e1 (e2 :: others) h4 h5.
  - intros t0 t1 h5 h6 H0 H1 Hempty.
    now apply check_no_sale with e0 e1 (e2 :: others) h4 h5 t0 t1.
  - intros e h5 H0.
    apply (check_fails product_url w (Some title) e h5).
    now apply fails_first_price_text with h4 e0 e1 (e2 :: others).
  - intros t0 e h5 h6 H0 H1.
    apply (check_fails product_url w (Some title) e h6).
    now apply fails_second_price_text with h4 h5 e0 e1 (e2 :: others) t0.
Qed.

End ExtractorProperties.

(** ** The extractor on scripted pages *)

Ltac on_scripted_page :=
  unfold page_yields; do 4 eexists; repeat split; lazy; reflexivity.

(** C1, as stated, fails when a price text carries white space around it:
    both texts are non-empty once stripped and the item is on sale, but the
    prices of the snapshot are the stripped texts, not the texts of the
    elements. *)
Lemma sale_prices_are_stripped :
  page_yields URL2 (host padded_prices_world) (lit "AIRism Cotton T-Shirt")
    [Ok (lit " 299.000"); Ok (lit "199.000 ")]
    (show (Some padded_prices_page) (host padded_prices_world)) /\
  element_text (Ok (lit " 299.000"))
    (show (Some padded_prices_page) (host padded_prices_world))
  = (Ok (lit " 299.000"),
     show (Some padded_prices_page) (host padded_prices_world)) /\
  element_text (Ok (lit "199.000 "))
    (show (Some padded_prices_page) (host padded_prices_world))
  = (Ok (lit "199.000 "),
     show (Some padded_prices_page) (host padded_prices_world)) /\
  strip (lit " 299.000") <> [] /\
  strip (lit "199.000 ") <> [] /\
  exists d w',
    check_specific_item_price_selenium URL2 padded_prices_world = (Ok d, w') /\
    is_on_sale d = true /\
    original_price d = Some (lit "299.000") /\
    original_price d <> Some (lit " 299.000") /\
    current_price d = lit "199.000" /\
    current_price d <> lit "199.000 ".
Proof.
  split; [on_scripted_page|].
  split; [reflexivity|]. split; [reflexivity|].
  split; [vm_compute; discriminate|]. split; [vm_compute; discriminate|].
  eexists. eexists. split; [vm_compute; reflexivity|].
  repeat split; try (vm_compute; reflexivity); vm_compute; discriminate.
Qed.

Lemma two_prices_mean_sale_witness :
  check_specific_item_price_selenium URL2 (scripted_world three_products)
  = (Ok {| name := lit "AIRism Cotton T-Shirt";
           current_price := strip (lit "199.000");
           is_on_sale := true;
           original_price := Some (strip (lit "299.000"));
           url := URL2 |},
     mkWorld
       (show (Some (product_page "AIRism Cotton T-Shirt"
                      [lit "299.000"; lit "199.000"]))
          (host (scripted_world three_products)))
       (trace (scripted_world three_products))).
Proof.
  apply (two_prices_mean_sale URL2 (lit "AIRism Cotton T-Shirt")
           (scripted_world three_products)
           (Ok (lit "299.000")) (Ok (lit "199.000"))
           (show (Some (product_page "AIRism Cotton T-Shirt"
                          [lit "299.000"; lit "199.000"]))
              (host (scripted_world three_products)))
           (show (Some (product_page "AIRism Cotton T-Shirt"
                          [lit "299.000"; lit "199.000"]))
              (host (scripted_world three_products)))).
  - on_scripted_page.
  - reflexivity.
  - reflexivity.
  - vm_compute. discriminate.
  - vm_compute. discriminate.
Defined.

(** C2, as stated, fails in the same way for a single price element: the
    current price is the stripped text, not the text of the element. *)
Lemma regular_price_is_stripped :
  page_yields URL2 (host padded_price_world) (lit "AIRism Cotton T-Shirt")
    [Ok (lit " 299.000")]
    (show (Some padded_price_page) (host padded_price_world)) /\
  element_text (Ok (lit " 299.000"))
    (show (Some padded_price_page) (host padded_price_world))
  = (Ok (lit " 299.000"),
     show (Some padded_price_page) (host padded_price_world)) /\
  exists d w',
    check_specific_item_price_selenium URL2 padded_price_world = (Ok d, w') /\
    is_on_sale d = false /\
    original_price d = None /\
    current_price d = lit "299.000" /\
    current_price d <> lit " 299.000".
Proof.
  split; [on_scripted_page|]. split; [reflexivity|].
  eexists. eexists. split; [vm_compute; reflexivity|].
  repeat split; try (vm_compute; reflexivity); vm_compute; discriminate.
Qed.

Lemma other_prices_mean_no_sale_witness :
  check_specific_item_price_selenium URL2 padded_price_world
  = (Ok {| name := lit "AIRism Cotton T-Shirt";
           current_price := strip (lit " 299.000");
           is_on_sale := false;
           original_price := None;
           url := URL2 |},
     mkWorld (on_page padded_price_world) (trace padded_price_world)) /\
  check_specific_item_price_selenium URL2 no_price_world
  = (Ok {| name := lit "AIRism Cotton T-Shirt";
           current_price := PRICE_NOT_FOUND;
           is_on_sale := false;
           original_price := None;
           url := URL2 |},
     mkWorld (on_page no_price_world) (trace no_price_world)) /\
  check_specific_item_price_selenium URL2 blank_price_world
  = (Ok {| name := lit "AIRism Cotton T-Shirt";
           current_price := PRICE_NOT_FOUND;
           is_on_sale := false;
           original_price := None;
           url := URL2 |},
     mkWorld (on_page blank_price_world) (trace blank_price_world)).
Proof.
  split; [|split].
  - refine (proj1 (other_prices_mean_no_sale URL2 (lit "AIRism Cotton T-Shirt")
                     padded_price_world [Ok (lit " 299.000")]
                     (on_page padded_price_world) _)
              (Ok (lit " 299.000")) (lit " 299.000")
              (on_page padded_price_world) eq_refl eq_refl).
    on_scripted_page.
  - refine (proj1 (proj2 (other_prices_mean_no_sale URL2
                            (lit "AIRism Cotton T-Shirt") no_price_world []
                            (on_page no_price_world) _))
              eq_refl).
    on_scripted_page.
  - refine (proj2 (proj2 (other_prices_mean_no_sale URL2
                            (lit "AIRism Cotton T-Shirt") blank_price_world
                            [Ok (lit "299.000"); Ok (lit "  ")]
                            (on_page blank_price_world) _))
              (Ok (lit "299.000")) (Ok (lit "  ")) (lit "299.000") (lit "  ")
              (on_page blank_price_world) (on_page blank_price_world)
              eq_refl eq_refl eq_refl _).
    + on_scripted_page.
    + right. vm_compute. reflexivity.
Defined.

(** C3, as stated, fails when the failure comes after the title has been
    read: here the price query raises, the extractor catches it, and the
    snapshot it returns carries the title of the page, not the placeholder
    name. *)
Lemma late_failure_keeps_title :
  fails URL2 (host broken_query_world) (Some (lit "AIRism Cotton T-Shirt"))
    (WebDriverException (lit "invalid session id"))
    (on_page broken_query_world) /\
  exists d w',
    check_specific_item_price_selenium URL2 broken_query_world = (Ok d, w') /\
    name d = lit "AIRism Cotton T-Shirt" /\
    name d <> NAME_NOT_FOUND /\
    current_price d = PRICE_NOT_FOUND /\
    is_on_sale d = false /\
    original_price d = None.
Proof.
  split.
  - apply fails_price_query
      with (h1 := on_page broken_query_world) (h2 := on_page broken_query_world)
           (h3 := on_page broken_query_world)
           (title_element := Ok (lit "AIRism Cotton T-Shirt"));
      reflexivity.
  - eexists. eexists. split; [vm_compute; reflexivity|].
    repeat split; try (vm_compute; reflexivity); vm_compute; discriminate.
Qed.

Lemma failures_are_caught_witness :
  check_specific_item_price_selenium URL2 timeout_world
  = (Ok {| name := NAME_NOT_FOUND;
           current_price := PRICE_NOT_FOUND;
           is_on_sale := false;
           original_price := None;
           url := URL2 |},
     mkWorld (on_page timeout_world)
       (trace timeout_world
          ++ [Printed (error_line URL2 (WebDriverException (lit "timeout")))])) /\
  check_specific_item_price_selenium URL2 broken_query_world
  = (Ok {| name := lit "AIRism Cotton T-Shirt";
           current_price := PRICE_NOT_FOUND;
           is_on_sale := false;
           original_price := None;
           url := URL2 |},
     mkWorld (on_page broken_query_world)
       (trace broken_query_world
          ++ [Printed (error_line URL2
                         (WebDriverException (lit "invalid session id")))])).
Proof.
  split.
  - apply (proj2 (failures_are_caught URL2 timeout_world) None).
    apply fails_title_wait with (h1 := on_page timeout_world); reflexivity.
  - apply (proj2 (failures_are_caught URL2 broken_query_world)
             (Some (lit "AIRism Cotton T-Shirt"))).
    apply fails_price_query
      with (h1 := on_page broken_query_world) (h2 := on_page broken_query_world)
           (h3 := on_page broken_query_world)
           (title_element := Ok (lit "AIRism Cotton T-Shirt"));
      reflexivity.
Defined.

Lemma further_prices_are_ignored_witness :
  check_specific_item_price_selenium URL2 three_prices_world
  = (Ok {| name := lit "AIRism Cotton T-Shirt";
           current_price := strip (lit "199.000");
           is_on_sale := true;
           original_price := Some (strip (lit "299.000"));
           url := URL2 |},
     mkWorld (on_page three_prices_world) (trace three_prices_world)) /\
  check_specific_item_price_selenium URL2 three_prices_blank_world
  = (Ok {| name := lit "AIRism Cotton T-Shirt";
           current_price := PRICE_NOT_FOUND;
           is_on_sale := false;
           original_price := None;
           url := URL2 |},
     mkWorld (on_page three_prices_blank_world)
       (trace three_prices_blank_world)) /\
  check_specific_item_price_selenium URL2 stale_first_price_world
  = (Ok {| name := lit "AIRism Cotton T-Shirt";
           current_price := PRICE_NOT_FOUND;
           is_on_sale := false;
           original_price := None;
           url := URL2 |},
     mkWorld (on_page stale_first_price_world)
       (trace stale_first_price_world ++ [Printed (error_line URL2 STALE)])) /\
  check_specific_item_price_selenium URL2 stale_second_price_world
  = (Ok {| name := lit "AIRism Cotton T-Shirt";
           current_price := PRICE_NOT_FOUND;
           is_on_sale := false;
           original_price := None;
           url := URL2 |},
     mkWorld (on_page stale_second_price_world)
       (trace stale_second_price_world ++ [Printed (error_line URL2 STALE)])).
Proof.
  split; [|split; [|split]].
  - refine (proj1 (further_prices_are_ignored URL2
                     (lit "AIRism Cotton T-Shirt") three_prices_world
                     (Ok (lit "299.000")) (Ok (lit "199.000"))
                     (Ok (lit "99.000")) [] (on_page three_prices_world) _)
              (lit "299.000") (lit "199.000")
              (on_page three_prices_world) (on_page three_prices_world)
              eq_refl eq_refl _ _).
    + on_scripted_page.
    + vm_compute. discriminate.
    + vm_compute. discriminate.
  - refine (proj1 (proj2 (further_prices_are_ignored URL2
                            (lit "AIRism Cotton T-Shirt")
                            three_prices_blank_world
                            (Ok (lit "299.000")) (Ok (lit "  "))
                            (Ok (lit "99.000")) []
                            (on_page three_prices_blank_world) _))
              (lit "299.000") (lit "  ")
              (on_page three_prices_blank_world)
              (on_page three_prices_blank_world)
              eq_refl eq_refl _).
    + on_scripted_page.
    + right. vm_compute. reflexivity.
  - refine (proj1 (proj2 (proj2 (further_prices_are_ignored URL2
                                   (lit "AIRism Cotton T-Shirt")
                                   stale_first_price_world
                                   (Raise STALE) (Ok (lit "199.000"))
                                   (Ok (lit "99.000")) []
                                   (on_page stale_first_price_world) _)))
              STALE (on_page stale_first_price_world) eq_refl).
    on_scripted_page.
  - refine (proj2 (proj2 (proj2 (further_prices_are_ignored URL2
                                   (lit "AIRism Cotton T-Shirt")
                                   stale_second_price_world
                                   (Ok (lit "299.000")) (Raise STALE)
                                   (Ok (lit "99.000")) []
                                   (on_page stale_second_price_world) _)))
              (lit "299.000") STALE
              (on_page stale_second_price_world)
              (on_page stale_second_price_world) eq_refl eq_refl).
    on_scripted_page.
Defined.

(* ------------------------------------------------------------------ *)
(** * Properties of the notifier and of the message *)

Lemma str_eqb_refl (s : pystr) : str_eqb s s = true.
Proof.
  induction s as [|c s IH]; simpl; [reflexivity|].
  now rewrite N.eqb_refl, IH.
Qed.

Lemma notified_app (a b : list Event) :
  notified (a ++ b) = notified a ++ notified b.
Proof.
  induction a as [|ev a IH]; simpl; [reflexivity|].
  destruct ev; simpl; now rewrite IH.
Qed.

Lemma posted_app (a b : list Event) :
  posted (a ++ b) = posted a ++ posted b.
Proof.
  induction a as [|ev a IH]; simpl; [reflexivity|].
  destruct ev; simpl; now rewrite IH.
Qed.

Lemma join_blocks (blocks : list pystr) :
  blocks <> [] ->
  join NL (map (fun b => NL ++ b) blocks) = NL ++ join (NL ++ NL) blocks.
Proof.
  induction blocks as [|b [|b' rest] IH]; intros Hne.
  - contradiction.
  - reflexivity.
  - change (join NL (map (fun b => NL ++ b) (b :: b' :: rest)))
      with ((NL ++ b) ++ NL ++ join NL (map (fun b => NL ++ b) (b' :: rest))).
    rewrite IH by discriminate.
    change (join (NL ++ NL) (b :: b' :: rest))
      with (b ++ (NL ++ NL) ++ join (NL ++ NL) (b' :: rest)).
    now rewrite <- !app_assoc.
Qed.

Section NotifierProperties.
Context {U : Unicode} {H E : Type} {HostHE : Host H E}.

(** C7: with the placeholder token or the placeholder chat id, the notifier
    returns normally, prints the diagnostic, and issues no HTTP call: the
    host is untouched and the trace gains no post. *)
Theorem placeholder_credentials_skip_sending (cfg : Config)
  (message : pystr) (w : World H) :
  TELEGRAM_BOT_TOKEN cfg = BOT_TOKEN_PLACEHOLDER \/
  TELEGRAM_CHAT_ID cfg = CHAT_ID_PLACEHOLDER ->
  send_telegram_notification cfg message w
  = (Ok tt,
     mkWorld (host w)
       (trace w ++
        [Notified message;
         Printed (lit "--- TELEGRAM ERROR: Please set your TELEGRAM_BOT_TOKEN and TELEGRAM_CHAT_ID. ---")])) /\
  posted (trace (snd (send_telegram_notification cfg message w)))
  = posted (trace w).
Proof.
  intros Hplaceholder.
  assert (Hguard :
            str_eqb (TELEGRAM_BOT_TOKEN cfg) (lit "YOUR_BOT_TOKEN_HERE")
            || str_eqb (TELEGRAM_CHAT_ID cfg) (lit "YOUR_CHAT_ID_HERE") = true).
  { destruct Hplaceholder as [-> | ->].
    - unfold BOT_TOKEN_PLACEHOLDER. now rewrite str_eqb_refl.
    - unfold CHAT_ID_PLACEHOLDER. rewrite str_eqb_refl. apply orb_true_r. }
  assert (Hrun :
            send_telegram_notification cfg message w
            = (Ok tt,
               mkWorld (host w)
                 (trace w ++
                  [Notified message;
                   Printed (lit "--- TELEGRAM ERROR: Please set your TELEGRAM_BOT_TOKEN and TELEGRAM_CHAT_ID. ---")]))).
  { unfold send_telegram_notification, bind, print, emit.
    cbn [fst snd host trace]. rewrite Hguard.
    cbn [fst snd host trace]. now rewrite <- app_assoc. }
  split; [exact Hrun|].
  rewrite Hrun. cbn [snd trace]. rewrite posted_app. simpl.
  apply app_nil_r.
Qed.

Lemma collect_details_map (items : list product_details) (acc : list pystr) :
  collect_details items acc = acc ++ map detail_line items.
Proof.
  revert acc.
  induction items as [|item items IH]; intros acc; simpl.
  - now rewrite app_nil_r.
  - now rewrite IH, <- app_assoc.
Qed.

(** C8: for a non-empty sequence of sale snapshots the message is the
    header, whose last line states the count, then one block per snapshot
    in input order, the blocks separated by a blank line.  A block is the
    name in bold, the line [Now *current* (was ~original~)], and the link
    [Tap to open in app] to the deep link of the snapshot's URL. *)
Theorem final_message_layout (rows : list (pystr * pystr * pystr * pystr)) :
  rows <> [] ->
  final_message (map sale_snapshot rows)
  = header (List.length rows) ++ NL ++ NL
      ++ join (NL ++ NL) (map block rows).
Proof.
  intros Hne.
  unfold final_message. rewrite collect_details_map. simpl app.
  rewrite map_map.
  assert (Hlines :
            map (fun row => detail_line (sale_snapshot row)) rows
            = map (fun b => NL ++ b) (map block rows)).
  { rewrite map_map. apply map_ext. intros [[[n c] o] u]. reflexivity. }
  rewrite Hlines, join_blocks.
  - unfold message_title, header. rewrite length_map.
    now rewrite <- !app_assoc.
  - destruct rows; [contradiction | discriminate].
Qed.

(** A call of the notifier adds its message, once, to the record of the
    notifier calls, whatever the credentials and the network do. *)
Lemma send_telegram_notification_trace (cfg : Config) (message : pystr)
  (w : World H) :
  exists evs,
    trace (snd (send_telegram_notification cfg message w)) = trace w ++ evs /\
    notified evs = [message].
Proof.
  unfold send_telegram_notification, bind, try_except, print, emit, call,
    raise_for_status.
  cbn [fst snd host trace].
  destruct (str_eqb (TELEGRAM_BOT_TOKEN cfg) (lit "YOUR_BOT_TOKEN_HERE")
            || str_eqb (TELEGRAM_CHAT_ID cfg) (lit "YOUR_CHAT_ID_HERE")).
  - cbn [fst snd host trace]. eexists. rewrite <- app_assoc.
    split; reflexivity.
  - cbn [fst snd host trace].
    destruct (requests_post _ _ (host w)) as [[response|e] h'];
      cbn [fst snd host trace].
    + destruct ((400 <=? status_code response) && (status_code response <? 500));
        [|destruct ((500 <=? status_code response)
                    && (status_code response <? 600))];
        cbn [fst snd host trace is_RequestException];
        eexists; rewrite <- !app_assoc; split; reflexivity.
    + destruct e; cbn [fst snd host trace is_RequestException];
        eexists; rewrite <- !app_assoc; split; reflexivity.
Qed.

Lemma check_products_run (urls : list pystr) (total i : nat)
  (sale_items : list product_details) (w : World H) :
  exists h' evs,
    check_products total i urls sale_items w
    = (Ok (sale_items ++ filter is_on_sale (loop_snapshots total i urls w)),
       mkWorld h' (trace w ++ evs)) /\
    notified evs = [] /\
    map url (loop_snapshots total i urls w) = urls.
Proof.
  revert i sale_items w.
  induction urls as [|product_url rest IH]; intros i sale_items w.
  - exists (host w), []. simpl. rewrite !app_nil_r.
    destruct w; auto.
  - destruct (check_total product_url
                (mkWorld (host w)
                   (trace w ++ [Printed (progress_line total i product_url)])))
      as (d & h1 & evs1 & Hrun & [_ Hurl] & Hnot1 & _).
    cbn [host trace] in Hrun.
    destruct (IH (S i)
                 (if is_on_sale d then sale_items ++ [d] else sale_items)
                 (mkWorld (time_sleep 2 h1)
                    ((trace w ++ [Printed (progress_line total i product_url)])
                       ++ evs1)))
      as (h' & evs & Hloop & Hnot & Hurls).
    exists h', ([Printed (progress_line total i product_url)] ++ evs1 ++ evs).
    cbn [check_products loop_snapshots].
    unfold bind at 1. unfold print at 1, emit at 1. cbn [fst snd host trace].
    unfold bind at 1. fold (progress_line total i product_url).
    unfold print, emit. cbn [fst snd host trace].
    rewrite Hrun. unfold bind at 1, effect at 1. cbn [fst snd host trace].
    unfold effect. cbn [fst snd host trace] in *.
    rewrite Hloop. split; [|split].
    + f_equal.
      * f_equal. destruct (is_on_sale d) eqn:Hsale; simpl; rewrite Hsale.
        -- now rewrite <- app_assoc.
        -- reflexivity.
      * now rewrite <- !app_assoc.
    + rewrite !notified_app, Hnot1, Hnot. reflexivity.
    + simpl. now rewrite Hurl, Hurls.
Qed.

Lemma run_snapshots_unfold (cfg : Config) (w : World H) :
  run_snapshots cfg w
  = match webdriver_Chrome CHROME_OPTIONS (host w) with
    | (Ok _, h1) =>
        loop_snapshots (List.length (PRODUCT_URLS cfg)) 0 (PRODUCT_URLS cfg)
          (mkWorld h1 (trace w ++ [Printed (start_line cfg w)]))
    | (Raise _, _) => []
    end.
Proof.
  unfold run_snapshots, call, print, emit. cbn [fst snd host trace].
  now destruct (webdriver_Chrome CHROME_OPTIONS (host w)) as [[[]|e] h1].
Qed.

(** C4: a run of [main] calls the notifier exactly when one of the
    extracted snapshots is on sale, and then calls it once, with the
    message built from the snapshots on sale, all of them and no others, in
    the order of the queries.  When Chrome starts there is one snapshot
    per configured query, in the order of the list. *)
Theorem main_notifies_once_iff_sale (cfg : Config) (w : World H) :
  exists evs,
    trace (snd (main cfg w)) = trace w ++ evs /\
    notified evs
    = match filter is_on_sale (run_snapshots cfg w) with
      | [] => []
      | item :: items => [final_message (item :: items)]
      end /\
    (notified evs <> [] <->
     exists d, In d (run_snapshots cfg w) /\ is_on_sale d = true) /\
    (forall h1,
       webdriver_Chrome CHROME_OPTIONS (host w) = (Ok tt, h1) ->
       map url (run_snapshots cfg w) = PRODUCT_URLS cfg).
Proof.
  assert (Hiff : forall (snaps : list product_details) (calls : list pystr),
            calls = match filter is_on_sale snaps with
                    | [] => []
                    | item :: items => [final_message (item :: items)]
                    end ->
            calls <> [] <-> exists d, In d snaps /\ is_on_sale d = true).
  { intros snaps calls ->. split.
    - destruct (filter is_on_sale snaps) as [|item items] eqn:Hf;
        [congruence|]. intros _. exists item.
      apply filter_In. rewrite Hf. now left.
    - intros (d & Hd). apply filter_In in Hd.
      destruct (filter is_on_sale snaps); [contradiction | discriminate]. }
  rewrite run_snapshots_unfold. unfold main.
  unfold bind at 1, ask at 1. cbn [fst snd host trace].
  unfold bind at 1, print at 1, emit at 1. cbn [fst snd host trace].
  fold (start_line cfg w).
  unfold bind at 1, call, print at 1, emit at 1. cbn [fst snd host trace].
  destruct (webdriver_Chrome CHROME_OPTIONS (host w)) as [[[]|e] h1] eqn:Hchrome;
    cbn [fst snd host trace].
  2: { exists [Printed (start_line cfg w)]. repeat split; try reflexivity.
       - intros Hne. now contradiction Hne.
       - intros (d & [] & _).
       - intros h1' Heq. discriminate Heq. }
  destruct (check_products_run (PRODUCT_URLS cfg)
              (List.length (PRODUCT_URLS cfg)) 0 []
              (mkWorld h1 (trace w ++ [Printed (start_line cfg w)])))
    as (h2 & evs1 & Hloop & Hnot1 & Hurls).
  cbn [host trace app] in Hloop.
  unfold bind at 1. rewrite Hloop.
  set (snaps := loop_snapshots (List.length (PRODUCT_URLS cfg)) 0
                  (PRODUCT_URLS cfg)
                  (mkWorld h1 (trace w ++ [Printed (start_line cfg w)]))) in *.
  unfold bind at 1, effect. cbn [fst snd host trace].
  destruct (filter is_on_sale snaps) as [|item items] eqn:Hsale.
  - unfold bind, ask, print, emit. cbn [fst snd host trace].
    eexists. rewrite <- !app_assoc. split; [reflexivity|].
    assert (Hcalls : notified
                       ([Printed (start_line cfg w)] ++ evs1 ++
                        [Printed (NL ++ lit "Finished check. No items are on sale today.")] ++
                        [Printed (lit "[" ++ time_ctime (driver_quit h2)
                                    ++ lit "] Price check complete.")]) = []).
    { rewrite !notified_app, Hnot1. reflexivity. }
    split; [exact Hcalls|]. split.
    + apply Hiff. now rewrite Hsale.
    + intros h1' _. exact Hurls.
  - unfold bind at 1. unfold bind at 1, print at 1, emit at 1.
    cbn [fst snd host trace].
    match goal with
    | |- context [send_telegram_notification ?c ?m ?w0] =>
        destruct (send_telegram_notification_trace c m w0)
          as (evs2 & Htrace2 & Hnot2);
        destruct (send_telegram_notification c m w0) as [[[]|e] w3] eqn:Hsend
    end; cbn [fst snd host trace] in *.
    + unfold bind, ask, print, emit. cbn [fst snd host trace].
      rewrite Htrace2. eexists. rewrite <- !app_assoc.
      split; [reflexivity|].
      assert (Hcalls : forall tail,
                notified tail = [] ->
                notified
                  ([Printed (start_line cfg w)] ++ evs1 ++
                   [Printed (NL ++ lit "Found "
                               ++ str_of_nat (List.length (item :: items))
                               ++ lit " item(s) on sale! Preparing summary notification...")] ++
                   evs2 ++ tail) = [final_message (item :: items)]).
      { intros tail Htail.
        rewrite !notified_app, Hnot1, Hnot2, Htail. reflexivity. }
      split; [now apply Hcalls|]. split.
      * apply Hiff. rewrite Hsale. now apply Hcalls.
      * intros h1' _. exact Hurls.
    + rewrite Htrace2. eexists. rewrite <- !app_assoc.
      split; [reflexivity|].
      assert (Hcalls :
                notified
                  ([Printed (start_line cfg w)] ++ evs1 ++
                   [Printed (NL ++ lit "Found "
                               ++ str_of_nat (List.length (item :: items))
                               ++ lit " item(s) on sale! Preparing summary notification...")] ++
                   evs2) = [final_message (item :: items)]).
      { rewrite !notified_app, Hnot1, Hnot2. reflexivity. }
      split; [exact Hcalls|]. split.
      * apply Hiff. rewrite Hsale. exact Hcalls.
      * intros h1' _. exact Hurls.
Qed.

End NotifierProperties.

(** ** The notifier and [main] on scripted hosts *)

Lemma placeholder_credentials_skip_sending_witness :
  send_telegram_notification shipped_config (lit "1 item(s) on sale")
    (scripted_world three_products)
  = (Ok tt,
     mkWorld (host (scripted_world three_products))
       (trace (scripted_world three_products) ++
        [Notified (lit "1 item(s) on sale");
         Printed (lit "--- TELEGRAM ERROR: Please set your TELEGRAM_BOT_TOKEN and TELEGRAM_CHAT_ID. ---")])) /\
  posted (trace (snd (send_telegram_notification shipped_config
                        (lit "1 item(s) on sale")
                        (scripted_world three_products))))
  = posted (trace (scripted_world three_products)).
Proof.
  apply (placeholder_credentials_skip_sending shipped_config
           (lit "1 item(s) on sale") (scripted_world three_products)).
  left. reflexivity.
Defined.

Lemma final_message_layout_witness :
  final_message
    (map sale_snapshot
       [(lit "AIRism Cotton T-Shirt", lit "199.000", lit "299.000", URL2);
        (lit "Fleece Jacket", lit "399.000", lit "499.000", URL3)])
  = header 2 ++ NL ++ NL
      ++ block (lit "AIRism Cotton T-Shirt", lit "199.000", lit "299.000", URL2)
      ++ NL ++ NL
      ++ block (lit "Fleece Jacket", lit "399.000", lit "499.000", URL3).
Proof.
  apply (final_message_layout
           [(lit "AIRism Cotton T-Shirt", lit "199.000", lit "299.000", URL2);
            (lit "Fleece Jacket", lit "399.000", lit "499.000", URL3)]).
  discriminate.
Defined.

(** Three queries of which the second is on sale: one call of the
    notifier, with the message of that one item. *)
Lemma main_notifies_once_iff_sale_witness :
  exists evs,
    trace (snd (main three_config (scripted_world three_products)))
    = trace (scripted_world three_products) ++ evs /\
    notified evs
    = [final_message
         [mkDetails (lit "AIRism Cotton T-Shirt") (lit "199.000") true
            (Some (lit "299.000")) URL2]] /\
    map url (run_snapshots three_config (scripted_world three_products))
    = [URL1; URL2; URL3].
Proof.
  destruct (main_notifies_once_iff_sale three_config
              (scripted_world three_products))
    as (evs & Htrace & Hcalls & _ & Hurls).
  exists evs. split; [exact Htrace|]. split.
  - rewrite Hcalls. vm_compute. reflexivity.
  - apply (Hurls (host (scripted_world three_products))). reflexivity.
Defined.

(* ------------------------------------------------------------------ *)
(** * Further properties of the notifier *)

Lemma str_eqb_eq (a b : pystr) : str_eqb a b = true <-> a = b.
Proof.
  split.
  - revert b. induction a as [|x a IH]; intros [|y b] Heq; simpl in Heq;
      try discriminate; [reflexivity|].
    apply andb_true_iff in Heq as [Hxy Hab].
    apply N.eqb_eq in Hxy. subst. f_equal. now apply IH.
  - intros ->. apply str_eqb_refl.
Qed.

Lemma str_eqb_neq (a b : pystr) : a <> b -> str_eqb a b = false.
Proof.
  intros Hne. destruct (str_eqb a b) eqn:Heq; [|reflexivity].
  apply str_eqb_eq in Heq. contradiction.
Qed.

Lemma credentials_set_configured (cfg : Config) :
  credentials_set cfg = true <-> configured cfg.
Proof.
  unfold credentials_set, configured. split.
  - intros Hset. apply andb_true_iff in Hset as [Ht Hc].
    apply negb_true_iff in Ht, Hc.
    split; intros Heq; rewrite Heq, str_eqb_refl in *; discriminate.
  - intros [Ht Hc]. now rewrite !str_eqb_neq.
Qed.

Section NotifierRuns.
Context {U : Unicode} {H E : Type} {HostHE : Host H E}.

(** With both credentials set, the notifier is one request and what
    follows from its outcome. *)
Lemma send_configured_run (cfg : Config) (message : pystr) (w : World H) :
  configured cfg ->
  send_telegram_notification cfg message w
  = match requests_post (telegram_api_url cfg)
            (telegram_payload cfg message) (host w) with
    | (Ok response, h') =>
        if is_error_status (status_code response)
        then (Ok tt,
              mkWorld h'
                (trace w ++
                 [Notified message;
                  Posted (telegram_api_url cfg) (telegram_payload cfg message);
                  Printed
                    (send_error_line
                       (http_error_msg
                          (if status_code response <? 500
                           then "Client" else "Server")
                          response))]))
        else (Ok tt,
              mkWorld h'
                (trace w ++
                 [Notified message;
                  Posted (telegram_api_url cfg) (telegram_payload cfg message);
                  Printed SENT_LINE]))
    | (Raise e, h') =>
        if is_RequestException e
        then (Ok tt,
              mkWorld h'
                (trace w ++
                 [Notified message;
                  Posted (telegram_api_url cfg) (telegram_payload cfg message);
                  Printed (send_error_line (exn_str e))]))
        else (Raise e,
              mkWorld h'
                (trace w ++
                 [Notified message;
                  Posted (telegram_api_url cfg) (telegram_payload cfg message)]))
    end.
Proof.
  intros [Htoken Hchat].
  unfold send_telegram_notification, bind, try_except, print, emit, call,
    raise_for_status.
  cbn [fst snd host trace].
  fold BOT_TOKEN_PLACEHOLDER CHAT_ID_PLACEHOLDER.
  rewrite (str_eqb_neq _ _ Htoken), (str_eqb_neq _ _ Hchat).
  cbn [orb fst snd host trace].
  fold (telegram_api_url cfg). fold (telegram_payload cfg message).
  destruct (requests_post (telegram_api_url cfg)
              (telegram_payload cfg message) (host w)) as [[response|e] h'];
    cbn [fst snd host trace].
  - unfold is_error_status.
    destruct (400 <=? status_code response) eqn:H400;
      destruct (status_code response <? 500) eqn:H500;
      destruct (status_code response <? 600) eqn:H600;
      destruct (500 <=? status_code response) eqn:H500';
      cbn [andb fst snd host trace is_RequestException];
      rewrite <- ?app_assoc; try reflexivity;
      apply Nat.leb_le in H400 || apply Nat.leb_gt in H400;
      apply Nat.ltb_lt in H500 || apply Nat.ltb_ge in H500;
      apply Nat.ltb_lt in H600 || apply Nat.ltb_ge in H600;
      apply Nat.leb_le in H500' || apply Nat.leb_gt in H500';
      lia.
  - destruct (is_RequestException e); cbn [fst snd host trace];
      rewrite <- ?app_assoc; reflexivity.
Qed.

Lemma send_placeholder_run (cfg : Config) (message : pystr) (w : World H) :
  credentials_set cfg = false ->
  send_telegram_notification cfg message w
  = (Ok tt,
     mkWorld (host w)
       (trace w ++
        [Notified message;
         Printed (lit "--- TELEGRAM ERROR: Please set your TELEGRAM_BOT_TOKEN and TELEGRAM_CHAT_ID. ---")])).
Proof.
  intros Hunset.
  assert (Hguard :
            str_eqb (TELEGRAM_BOT_TOKEN cfg) (lit "YOUR_BOT_TOKEN_HERE")
            || str_eqb (TELEGRAM_CHAT_ID cfg) (lit "YOUR_CHAT_ID_HERE") = true).
  { unfold credentials_set in Hunset.
    rewrite <- negb_orb in Hunset. now apply negb_false_iff in Hunset. }
  unfold send_telegram_notification, bind, print, emit.
  cbn [fst snd host trace]. rewrite Hguard.
  cbn [fst snd host trace]. now rewrite <- app_assoc.
Qed.

(** X1: with both credentials set, the notifier issues exactly one HTTP
    request, whatever its outcome: a post to the [sendMessage] endpoint of
    the configured bot, whose body carries the configured chat id, the
    message, the Markdown mode and the disabled link preview. *)
Theorem configured_notifier_posts_once (cfg : Config) (message : pystr)
  (w : World H) :
  configured cfg ->
  exists evs,
    trace (snd (send_telegram_notification cfg message w)) = trace w ++ evs /\
    posted evs = [(telegram_api_url cfg, telegram_payload cfg message)] /\
    host (snd (send_telegram_notification cfg message w))
    = snd (requests_post (telegram_api_url cfg)
             (telegram_payload cfg message) (host w)).
Proof.
  intros Hcfg. rewrite (send_configured_run cfg message w Hcfg).
  destruct (requests_post (telegram_api_url cfg)
              (telegram_payload cfg message) (host w)) as [[response|e] h'].
  - destruct (is_error_status (status_code response));
      cbn [snd host trace]; eexists; repeat split; reflexivity.
  - destruct (is_RequestException e);
      cbn [snd host trace]; eexists; repeat split; reflexivity.
Qed.

(** X2: a failed delivery is not fatal.  When the request raises a
    [RequestException], or is answered with a 4xx or 5xx status, the
    notifier returns normally and prints an error line instead of the
    success line. *)
Theorem delivery_failure_is_not_fatal (cfg : Config) (message : pystr)
  (w : World H) (r : result Response) (h' : H) :
  configured cfg ->
  requests_post (telegram_api_url cfg) (telegram_payload cfg message) (host w)
  = (r, h') ->
  match r with
  | Ok response => is_error_status (status_code response) = true
  | Raise e => is_RequestException e = true
  end ->
  exists msg,
    send_telegram_notification cfg message w
    = (Ok tt,
       mkWorld h'
         (trace w ++
          [Notified message;
           Posted (telegram_api_url cfg) (telegram_payload cfg message);
           Printed (send_error_line msg)])).
Proof.
  intros Hcfg Hpost Hfailed.
  rewrite (send_configured_run cfg message w Hcfg), Hpost.
  destruct r as [response|e]; rewrite Hfailed; eexists; reflexivity.
Qed.

(** X3: when the request is answered with a status outside 400..599, the
    notifier prints the success line and returns normally. *)
Theorem delivered_notification_is_reported (cfg : Config) (message : pystr)
  (w : World H) (response : Response) (h' : H) :
  configured cfg ->
  requests_post (telegram_api_url cfg) (telegram_payload cfg message) (host w)
  = (Ok response, h') ->
  is_error_status (status_code response) = false ->
  send_telegram_notification cfg message w
  = (Ok tt,
     mkWorld h'
       (trace w ++
        [Notified message;
         Posted (telegram_api_url cfg) (telegram_payload cfg message);
         Printed SENT_LINE])).
Proof.
  intros Hcfg Hpost Hstatus.
  now rewrite (send_configured_run cfg message w Hcfg), Hpost, Hstatus.
Qed.

(** X4: the notifier raises nothing of its own.  If it raises, the
    credentials were set and the exception is the one that
    [requests.post] raised, which is not a [RequestException]. *)
Theorem notifier_raises_only_what_post_raised (cfg : Config)
  (message : pystr) (w w' : World H) (e : exn) :
  send_telegram_notification cfg message w = (Raise e, w') ->
  configured cfg /\
  is_RequestException e = false /\
  requests_post (telegram_api_url cfg) (telegram_payload cfg message) (host w)
  = (Raise e, host w').
Proof.
  intros Hraise.
  destruct (credentials_set cfg) eqn:Hset.
  - apply credentials_set_configured in Hset.
    split; [assumption|].
    rewrite (send_configured_run cfg message w Hset) in Hraise.
    destruct (requests_post (telegram_api_url cfg)
                (telegram_payload cfg message) (host w)) as [[response|e0] h'].
    + destruct (is_error_status (status_code response)); discriminate.
    + destruct (is_RequestException e0) eqn:Hclass; [discriminate|].
      inversion Hraise; subst. split; [assumption | reflexivity].
  - rewrite (send_placeholder_run cfg message w Hset) in Hraise.
    discriminate.
Qed.

End NotifierRuns.

Lemma configured_notifier_posts_once_witness :
  exists evs,
    trace (snd (send_telegram_notification three_config (lit "1 item(s) on sale")
                  (scripted_world three_products)))
    = trace (scripted_world three_products) ++ evs /\
    posted evs
    = [(telegram_api_url three_config,
        telegram_payload three_config (lit "1 item(s) on sale"))] /\
    host (snd (send_telegram_notification three_config
                 (lit "1 item(s) on sale") (scripted_world three_products)))
    = snd (requests_post (telegram_api_url three_config)
             (telegram_payload three_config (lit "1 item(s) on sale"))
             (host (scripted_world three_products))).
Proof.
  apply (configured_notifier_posts_once three_config (lit "1 item(s) on sale")
           (scripted_world three_products)).
  split; vm_compute; discriminate.
Defined.

Lemma delivery_failure_is_not_fatal_witness :
  (exists msg,
     send_telegram_notification three_config (lit "1 item(s) on sale")
       (with_telegram (Ok FORBIDDEN) (scripted_world three_products))
     = (Ok tt,
        mkWorld
          (host (with_telegram (Ok FORBIDDEN) (scripted_world three_products)))
          (trace (with_telegram (Ok FORBIDDEN) (scripted_world three_products))
           ++ [Notified (lit "1 item(s) on sale");
               Posted (telegram_api_url three_config)
                 (telegram_payload three_config (lit "1 item(s) on sale"));
               Printed (send_error_line msg)]))) /\
  (exists msg,
     send_telegram_notification three_config (lit "1 item(s) on sale")
       (with_telegram (Raise CONNECTION_ERROR) (scripted_world three_products))
     = (Ok tt,
        mkWorld
          (host (with_telegram (Raise CONNECTION_ERROR)
                   (scripted_world three_products)))
          (trace (with_telegram (Raise CONNECTION_ERROR)
                    (scripted_world three_products))
           ++ [Notified (lit "1 item(s) on sale");
               Posted (telegram_api_url three_config)
                 (telegram_payload three_config (lit "1 item(s) on sale"));
               Printed (send_error_line msg)]))).
Proof.
  split.
  - apply (delivery_failure_is_not_fatal three_config (lit "1 item(s) on sale")
             (with_telegram (Ok FORBIDDEN) (scripted_world three_products))
             (Ok FORBIDDEN)).
    + split; vm_compute; discriminate.
    + reflexivity.
    + reflexivity.
  - apply (delivery_failure_is_not_fatal three_config (lit "1 item(s) on sale")
             (with_telegram (Raise CONNECTION_ERROR)
                (scripted_world three_products))
             (Raise CONNECTION_ERROR)).
    + split; vm_compute; discriminate.
    + reflexivity.
    + reflexivity.
Defined.

Lemma delivered_notification_is_reported_witness :
  send_telegram_notification three_config (lit "1 item(s) on sale")
    (scripted_world three_products)
  = (Ok tt,
     mkWorld (host (scripted_world three_products))
       (trace (scripted_world three_products) ++
        [Notified (lit "1 item(s) on sale");
         Posted (telegram_api_url three_config)
           (telegram_payload three_config (lit "1 item(s) on sale"));
         Printed SENT_LINE])).
Proof.
  apply (delivered_notification_is_reported three_config
           (lit "1 item(s) on sale") (scripted_world three_products)
           (mkResponse 200 (lit "OK")
              (lit "https://api.telegram.org/bot123456:ABC/sendMessage"))).
  - split; vm_compute; discriminate.
  - reflexivity.
  - reflexivity.
Defined.

Lemma notifier_raises_only_what_post_raised_witness :
  configured three_config /\
  is_RequestException (OtherException (lit "Object is not JSON serializable"))
  = false /\
  requests_post (telegram_api_url three_config)
    (telegram_payload three_config (lit "1 item(s) on sale"))
    (host (with_telegram
             (Raise (OtherException (lit "Object is not JSON serializable")))
             (scripted_world three_products)))
  = (Raise (OtherException (lit "Object is not JSON serializable")),
     host (with_telegram
             (Raise (OtherException (lit "Object is not JSON serializable")))
             (scripted_world three_products))).
Proof.
  apply (notifier_raises_only_what_post_raised three_config
           (lit "1 item(s) on sale")
           (with_telegram
              (Raise (OtherException (lit "Object is not JSON serializable")))
              (scripted_world three_products))
           (mkWorld
              (host (with_telegram
                       (Raise (OtherException
                                 (lit "Object is not JSON serializable")))
                       (scripted_world three_products)))
              [Notified (lit "1 item(s) on sale");
               Posted (telegram_api_url three_config)
                 (telegram_payload three_config (lit "1 item(s) on sale"))])).
  vm_compute. reflexivity.
Defined.

(* ------------------------------------------------------------------ *)
(** * Further properties of the run *)

Section RunProperties.
Context {U : Unicode} {H E : Type} {HostHE : Host H E}.

(** The loop never raises, takes one snapshot per query, keeps the ones
    on sale, and neither notifies nor posts. *)
Lemma check_products_quiet (urls : list pystr) (total i : nat)
  (sale_items : list product_details) (w : World H) :
  exists h' evs,
    check_products total i urls sale_items w
    = (Ok (sale_items ++ filter is_on_sale (loop_snapshots total i urls w)),
       mkWorld h' (trace w ++ evs)) /\
    notified evs = [] /\ posted evs = [] /\
    map url (loop_snapshots total i urls w) = urls.
Proof.
  revert i sale_items w.
  induction urls as [|product_url rest IH]; intros i sale_items w.
  - exists (host w), []. simpl. rewrite !app_nil_r.
    destruct w; auto.
  - destruct (check_total product_url
                (mkWorld (host w)
                   (trace w ++ [Printed (progress_line total i product_url)])))
      as (d & h1 & evs1 & Hrun & [_ Hurl] & Hnot1 & Hpost1).
    cbn [host trace] in Hrun.
    destruct (IH (S i)
                 (if is_on_sale d then sale_items ++ [d] else sale_items)
                 (mkWorld (time_sleep 2 h1)
                    ((trace w ++ [Printed (progress_line total i product_url)])
                       ++ evs1)))
      as (h' & evs & Hloop & Hnot & Hpost & Hurls).
    exists h', ([Printed (progress_line total i product_url)] ++ evs1 ++ evs).
    cbn [check_products loop_snapshots].
    unfold bind at 1. unfold print at 1, emit at 1. cbn [fst snd host trace].
    unfold bind at 1. fold (progress_line total i product_url).
    unfold print, emit. cbn [fst snd host trace].
    rewrite Hrun. unfold bind at 1, effect at 1. cbn [fst snd host trace].
    unfold effect. cbn [fst snd host trace] in *.
    rewrite Hloop. split; [|split; [|split]].
    + f_equal.
      * f_equal. destruct (is_on_sale d) eqn:Hsale; simpl; rewrite Hsale.
        -- now rewrite <- app_assoc.
        -- reflexivity.
      * now rewrite <- !app_assoc.
    + rewrite !notified_app, Hnot1, Hnot. reflexivity.
    + rewrite !posted_app, Hpost1, Hpost. reflexivity.
    + simpl. now rewrite Hurl, Hurls.
Qed.

(** A run in which Chrome starts: the loop, the release of the browser,
    and then either the closing lines or the notifier. *)
Lemma main_run (cfg : Config) (w : World H) (h1 : H) :
  webdriver_Chrome CHROME_OPTIONS (host w) = (Ok tt, h1) ->
  exists h2 evs1,
    check_products (List.length (PRODUCT_URLS cfg)) 0 (PRODUCT_URLS cfg) []
      (mkWorld h1 (trace w ++ [Printed (start_line cfg w)]))
    = (Ok (filter is_on_sale (run_snapshots cfg w)),
       mkWorld h2 (trace w ++ Printed (start_line cfg w) :: evs1)) /\
    notified evs1 = [] /\ posted evs1 = [] /\
    main cfg w
    = match filter is_on_sale (run_snapshots cfg w) with
      | [] =>
          (Ok tt,
           mkWorld (driver_quit h2)
             (trace w ++ Printed (start_line cfg w) :: evs1 ++
              [Printed (NL ++ lit "Finished check. No items are on sale today.");
               Printed (lit "[" ++ time_ctime (driver_quit h2)
                          ++ lit "] Price check complete.")]))
      | item :: items =>
          match send_telegram_notification cfg (final_message (item :: items))
                  (mkWorld (driver_quit h2)
                     (trace w ++ Printed (start_line cfg w) :: evs1 ++
                      [Printed (NL ++ lit "Found "
                                  ++ str_of_nat (List.length (item :: items))
                                  ++ lit " item(s) on sale! Preparing summary notification...")]))
          with
          | (Ok _, w3) =>
              (Ok tt,
               mkWorld (host w3)
                 (trace w3 ++
                  [Printed (lit "[" ++ time_ctime (host w3)
                              ++ lit "] Price check complete.")]))
          | (Raise e, w3) => (Raise e, w3)
          end
      end.
Proof.
  intros Hchrome.
  rewrite run_snapshots_unfold, Hchrome. unfold main.
  unfold bind at 1, ask at 1. cbn [fst snd host trace].
  unfold bind at 1, print at 1, emit at 1. cbn [fst snd host trace].
  fold (start_line cfg w).
  unfold bind at 1, call, print at 1, emit at 1. cbn [fst snd host trace].
  rewrite Hchrome. cbn [fst snd host trace].
  destruct (check_products_quiet (PRODUCT_URLS cfg)
              (List.length (PRODUCT_URLS cfg)) 0 []
              (mkWorld h1 (trace w ++ [Printed (start_line cfg w)])))
    as (h2 & evs1 & Hloop & Hnot1 & Hpost1 & _).
  cbn [host trace app] in Hloop.
  exists h2, evs1.
  split; [rewrite Hloop, <- app_assoc; reflexivity|].
  split; [assumption|]. split; [assumption|].
  unfold bind at 1. rewrite Hloop.
  unfold bind at 1, effect. cbn [fst snd host trace].
  destruct (filter is_on_sale _) as [|item items].
  - unfold bind, ask, print, emit. cbn [fst snd host trace].
    now rewrite <- !app_assoc.
  - unfold bind at 1. unfold bind at 1, print at 1, emit at 1.
    cbn [fst snd host trace]. rewrite <- !app_assoc. cbn [app].
    destruct (send_telegram_notification cfg (final_message (item :: items)) _)
      as [[[]|e] w3]; [|reflexivity].
    unfold bind, ask, print, emit. reflexivity.
Qed.

Lemma send_posts (cfg : Config) (message : pystr) (w : World H) :
  exists evs,
    trace (snd (send_telegram_notification cfg message w)) = trace w ++ evs /\
    posted evs
    = if credentials_set cfg
      then [(telegram_api_url cfg, telegram_payload cfg message)]
      else [].
Proof.
  destruct (credentials_set cfg) eqn:Hset.
  - apply credentials_set_configured in Hset.
    rewrite (send_configured_run cfg message w Hset).
    destruct (requests_post (telegram_api_url cfg)
                (telegram_payload cfg message) (host w)) as [[response|e] h'].
    + destruct (is_error_status (status_code response));
        cbn [snd host trace]; eexists; split; reflexivity.
    + destruct (is_RequestException e);
        cbn [snd host trace]; eexists; split; reflexivity.
  - rewrite (send_placeholder_run cfg message w Hset).
    cbn [snd host trace]. eexists; split; reflexivity.
Qed.

Lemma send_raise_inversion (cfg : Config) (message : pystr)
  (w w' : World H) (e : exn) :
  send_telegram_notification cfg message w = (Raise e, w') ->
  configured cfg /\
  is_RequestException e = false /\
  requests_post (telegram_api_url cfg) (telegram_payload cfg message) (host w)
  = (Raise e, host w').
Proof.
  intros Hraise.
  destruct (credentials_set cfg) eqn:Hset.
  - apply credentials_set_configured in Hset. split; [assumption|].
    rewrite (send_configured_run cfg message w Hset) in Hraise.
    destruct (requests_post (telegram_api_url cfg)
                (telegram_payload cfg message) (host w)) as [[response|e0] h'].
    + destruct (is_error_status (status_code response)); discriminate.
    + destruct (is_RequestException e0) eqn:Hclass; [discriminate|].
      inversion Hraise; subst. split; [assumption | reflexivity].
  - rewrite (send_placeholder_run cfg message w Hset) in Hraise.
    discriminate.
Qed.

Lemma main_without_chrome (cfg : Config) (w : World H) (e : exn) (h1 : H) :
  webdriver_Chrome CHROME_OPTIONS (host w) = (Raise e, h1) ->
  main cfg w = (Raise e, mkWorld h1 (trace w ++ [Printed (start_line cfg w)])).
Proof.
  intros Hchrome. unfold main.
  unfold bind at 1, ask at 1. cbn [fst snd host trace].
  unfold bind at 1, print at 1, emit at 1. cbn [fst snd host trace].
  fold (start_line cfg w).
  unfold bind at 1, call, print at 1, emit at 1. cbn [fst snd host trace].
  now rewrite Hchrome.
Qed.

(** X5: when Chrome does not start, [main] raises that exception at once:
    it has printed its first line and nothing else, visited no page and
    called no notifier. *)
Theorem chrome_failure_aborts_run (cfg : Config) (w : World H) (e : exn)
  (h1 : H) :
  webdriver_Chrome CHROME_OPTIONS (host w) = (Raise e, h1) ->
  main cfg w = (Raise e, mkWorld h1 (trace w ++ [Printed (start_line cfg w)]))
  /\ run_snapshots cfg w = [].
Proof.
  intros Hchrome. split.
  - now apply main_without_chrome.
  - now rewrite run_snapshots_unfold, Hchrome.
Qed.

(** X6: [main] raises only at its two ends.  If a run raises [e], either
    Chrome did not start and raised [e]; or Chrome started, the loop over
    the queries ran to its end and returned at least one item on sale, the
    browser was released, both credentials are set, and it is
    [requests.post], called with the message of these items, that raised
    [e], which is not a [RequestException].  So no failure of a product
    page ends the run. *)
Theorem run_raises_only_at_its_ends (cfg : Config) (w w' : World H) (e : exn) :
  main cfg w = (Raise e, w') ->
  (exists h1, webdriver_Chrome CHROME_OPTIONS (host w) = (Raise e, h1)) \/
  (exists h1 h2 evs item items,
     webdriver_Chrome CHROME_OPTIONS (host w) = (Ok tt, h1) /\
     check_products (List.length (PRODUCT_URLS cfg)) 0 (PRODUCT_URLS cfg) []
       (mkWorld h1 (trace w ++ [Printed (start_line cfg w)]))
     = (Ok (item :: items),
        mkWorld h2 (trace w ++ Printed (start_line cfg w) :: evs)) /\
     filter is_on_sale (run_snapshots cfg w) = item :: items /\
     configured cfg /\
     is_RequestException e = false /\
     requests_post (telegram_api_url cfg)
       (telegram_payload cfg (final_message (item :: items)))
       (driver_quit h2)
     = (Raise e, host w')).
Proof.
  intros Hraise.
  destruct (webdriver_Chrome CHROME_OPTIONS (host w)) as [[[]|e0] h1]
    eqn:Hchrome.
  - right.
    destruct (main_run cfg w h1 Hchrome)
      as (h2 & evs1 & Hloop & _ & _ & Hmain).
    rewrite Hmain in Hraise.
    destruct (filter is_on_sale (run_snapshots cfg w)) as [|item items];
      [discriminate|].
    match type of Hraise with
    | context [send_telegram_notification ?c ?m ?w0] =>
        destruct (send_telegram_notification c m w0) as [[[]|e1] w3] eqn:Hsend
    end; [discriminate|].
    inversion Hraise; subst.
    destruct (send_raise_inversion _ _ _ _ _ Hsend)
      as (Hcfg & Hclass & Hpost).
    cbn [host] in Hpost.
    exists h1, h2, evs1, item, items.
    split; [reflexivity|]. split; [exact Hloop|]. split; [reflexivity|].
    split; [exact Hcfg|]. split; [exact Hclass | exact Hpost].
  - left. rewrite (main_without_chrome cfg w e0 h1 Hchrome) in Hraise.
    inversion Hraise; subst. now exists h1.
Qed.

(** X7: a run issues at most one HTTP request.  It posts exactly once,
    the message of the items on sale to the configured bot, when some
    snapshot is on sale and both credentials are set; otherwise it posts
    nothing. *)
Theorem run_posts_at_most_once (cfg : Config) (w : World H) :
  exists evs,
    trace (snd (main cfg w)) = trace w ++ evs /\
    posted evs
    = match filter is_on_sale (run_snapshots cfg w) with
      | [] => []
      | item :: items =>
          if credentials_set cfg
          then [(telegram_api_url cfg,
                 telegram_payload cfg (final_message (item :: items)))]
          else []
      end.
Proof.
  destruct (webdriver_Chrome CHROME_OPTIONS (host w)) as [[[]|e0] h1]
    eqn:Hchrome.
  - destruct (main_run cfg w h1 Hchrome)
      as (h2 & evs1 & _ & _ & Hpost1 & Hmain).
    rewrite Hmain.
    destruct (filter is_on_sale (run_snapshots cfg w)) as [|item items].
    + cbn [snd trace]. eexists. split; [reflexivity|].
      change (Printed (start_line cfg w) :: evs1 ++ ?tail)
        with ([Printed (start_line cfg w)] ++ evs1 ++ tail).
      now rewrite !posted_app, Hpost1.
    + match goal with
      | |- context [send_telegram_notification ?c ?m ?w0] =>
          destruct (send_posts c m w0) as (evs2 & Htrace2 & Hpost2);
          destruct (send_telegram_notification c m w0) as [[[]|e1] w3]
      end; cbn [snd trace] in *; rewrite Htrace2; eexists;
        rewrite <- ?app_assoc; (split; [reflexivity|]);
        change (Printed (start_line cfg w) :: evs1 ++ ?tail)
          with ([Printed (start_line cfg w)] ++ evs1 ++ tail);
        rewrite !posted_app, Hpost1, Hpost2; cbn [posted app];
        now rewrite ?app_nil_r.
  - rewrite (main_without_chrome cfg w e0 h1 Hchrome).
    rewrite run_snapshots_unfold, Hchrome. cbn [snd trace filter].
    eexists. split; reflexivity.
Qed.

(** X8: the loop of [main] survives every page.  Whatever the pages do it
    returns normally, having taken one snapshot per query in the order of
    the queries, and it returns the items it started from followed by the
    snapshots that are on sale, in that order. *)
Theorem loop_checks_every_query (urls : list pystr) (total i : nat)
  (sale_items : list product_details) (w : World H) :
  fst (check_products total i urls sale_items w)
  = Ok (sale_items ++ filter is_on_sale (loop_snapshots total i urls w)) /\
  map url (loop_snapshots total i urls w) = urls.
Proof.
  destruct (check_products_quiet urls total i sale_items w)
    as (h' & evs & Hloop & _ & _ & Hurls).
  now rewrite Hloop.
Qed.

End RunProperties.

(* ------------------------------------------------------------------ *)
(** * Further properties of the link transformer *)

Section LinkSuffix.
Context {U : Unicode}.

Lemma matches_length (p : list cclass) (m : pystr) :
  matches p m = true -> List.length m = List.length p.
Proof.
  revert m. induction p as [|k p IH]; intros [|c m] Hm; simpl in *;
    try discriminate; [reflexivity|].
  apply andb_true_iff in Hm as [_ Hm]. now rewrite (IH _ Hm).
Qed.

Lemma match_here_app_some (p : list cclass) (s m post : pystr) :
  match_here p s = Some m -> match_here p (s ++ post) = Some m.
Proof.
  intros Hm.
  destruct (match_here_matches _ _ _ Hm) as [Hfull [rest ->]].
  rewrite <- app_assoc. now apply matches_match_here.
Qed.

Lemma match_here_app_none (p : list cclass) (s post : pystr) :
  match_here p s = None -> List.length p <= List.length s ->
  match_here p (s ++ post) = None.
Proof.
  revert s. induction p as [|k p IH]; intros s Hm Hlen; simpl in Hm.
  - discriminate.
  - destruct s as [|c s]; [simpl in Hlen; lia|].
    simpl. destruct (cmatch k c); [|reflexivity].
    destruct (match_here p s) eqn:Hrec; [discriminate|].
    rewrite (IH s); [reflexivity | assumption | simpl in Hlen; lia].
Qed.

Lemma re_search_app (p : list cclass) (s m post : pystr) :
  re_search p s = Some m -> re_search p (s ++ post) = Some m.
Proof.
  induction s as [|c s IH]; intros Hs; simpl in Hs.
  - destruct (match_here p []) as [m0|] eqn:Hm; [|discriminate].
    inversion Hs; subst. apply re_search_here.
    now apply match_here_app_some.
  - destruct (match_here p (c :: s)) as [m0|] eqn:Hm.
    + inversion Hs; subst. apply re_search_here.
      now apply match_here_app_some.
    + destruct (re_search_some _ _ _ Hs) as (pre & rest & Heq & Hfull & _).
      assert (Hlen : List.length p <= List.length (c :: s)).
      { rewrite Heq. simpl. rewrite !length_app, (matches_length _ _ Hfull).
        lia. }
      simpl app. cbn [re_search].
      change (c :: s ++ post) with ((c :: s) ++ post).
      rewrite (match_here_app_none _ _ post Hm Hlen).
      now apply IH.
Qed.

(** X9: the deep link depends on nothing that follows the first
    identifier.  When a URL contains a product identifier, appending
    anything to it (a query string, another identifier) does not change
    its deep link. *)
Theorem deep_link_ignores_what_follows (s post : pystr) :
  (exists pre id, occurs_at pre id s /\ is_product_id id = true) ->
  convert_to_app_link (s ++ post) = convert_to_app_link s.
Proof.
  intros (pre & id & Hocc & Hid).
  unfold convert_to_app_link.
  destruct (re_search product_id_pattern s) as [m|] eqn:Hs.
  - now rewrite (re_search_app _ _ _ post Hs).
  - rewrite is_product_id_matches in Hid.
    now rewrite (re_search_none _ _ Hs pre id Hocc) in Hid.
Qed.

End LinkSuffix.

Lemma deep_link_ignores_what_follows_witness :
  convert_to_app_link
    ((WEB_PREFIX ++ lit "E479169-000") ++ lit "?colorCode=COL09&sizeCode=SMA007")
  = convert_to_app_link (WEB_PREFIX ++ lit "E479169-000").
Proof.
  apply (deep_link_ignores_what_follows (WEB_PREFIX ++ lit "E479169-000")
           (lit "?colorCode=COL09&sizeCode=SMA007")).
  exists WEB_PREFIX, (lit "E479169-000"). split.
  - apply occurs_at_intro with (post := []). now rewrite app_nil_r.
  - vm_compute. reflexivity.
Defined.

(* ------------------------------------------------------------------ *)
(** * Further properties of the extractor *)

Section Stripping.
Context {U : Unicode}.

Lemma lstrip_head (s t : pystr) (c : N) :
  lstrip s = c :: t -> isspace c = false.
Proof.
  induction s as [|x s IH]; simpl; [discriminate|].
  destruct (isspace x) eqn:Hx; [assumption|].
  intros Heq. now inversion Heq; subst.
Qed.

Lemma lstrip_idempotent (s : pystr) : lstrip (lstrip s) = lstrip s.
Proof.
  induction s as [|x s IH]; simpl; [reflexivity|].
  destruct (isspace x) eqn:Hx; [assumption|].
  simpl. now rewrite Hx.
Qed.

Lemma lstrip_suffix (s : pystr) : exists pre, s = pre ++ lstrip s.
Proof.
  induction s as [|x s [pre IH]]; simpl.
  - now exists [].
  - destruct (isspace x).
    + exists (x :: pre). simpl. now f_equal.
    + now exists [].
Qed.

Lemma rstrip_prefix (s : pystr) : exists suf, s = rstrip s ++ suf.
Proof.
  unfold rstrip. destruct (lstrip_suffix (rev s)) as [pre Hpre].
  exists (rev pre).
  rewrite <- rev_app_distr, <- Hpre. now rewrite rev_involutive.
Qed.

Lemma rstrip_idempotent (s : pystr) : rstrip (rstrip s) = rstrip s.
Proof.
  unfold rstrip. now rewrite rev_involutive, lstrip_idempotent.
Qed.

Lemma strip_idempotent (s : pystr) : strip (strip s) = strip s.
Proof.
  unfold strip.
  assert (Hleft : lstrip (rstrip (lstrip s)) = rstrip (lstrip s)).
  { destruct (rstrip_prefix (lstrip s)) as [suf Hsuf].
    destruct (rstrip (lstrip s)) as [|c r] eqn:Hr; [reflexivity|].
    simpl in Hsuf. apply lstrip_head in Hsuf.
    simpl. now rewrite Hsuf. }
  now rewrite Hleft, rstrip_idempotent.
Qed.

End Stripping.

Section SaleSnapshots.
Context {U : Unicode} {H E : Type} {HostHE : Host H E}.

(** What lies behind a snapshot that is on sale. *)
Lemma sale_inversion (product_url : pystr) (w w' : World H)
  (d : product_details) :
  check_specific_item_price_selenium product_url w = (Ok d, w') ->
  is_on_sale d = true ->
  exists title e0 e1 others h4 h5 t0 t1,
    page_yields product_url (host w) title (e0 :: e1 :: others) h4 /\
    element_text e0 h4 = (Ok t0, h5) /\
    element_text e1 h5 = (Ok t1, host w') /\
    strip t0 <> [] /\ strip t1 <> [] /\
    d = mkDetails title (strip t1) true (Some (strip t0)) product_url.
Proof.
  intros Hrun Hsale.
  destruct (extraction_cases product_url (host w))
    as [(read & e & h' & Hfails) | (title & es & h4 & Hpage & Htexts)].
  - rewrite (check_fails _ _ _ _ _ Hfails) in Hrun.
    inversion Hrun; subst. discriminate Hsale.
  - destruct es as [|e0 [|e1 others]].
    + rewrite (check_no_price _ _ _ _ Hpage) in Hrun.
      inversion Hrun; subst. discriminate Hsale.
    + destruct Htexts as (t0 & h5 & H0).
      rewrite (check_one_price _ _ _ _ _ _ _ Hpage H0) in Hrun.
      inversion Hrun; subst. discriminate Hsale.
    + destruct Htexts as (t0 & t1 & h5 & h6 & H0 & H1).
      destruct (strip t0) as [|c0 s0] eqn:Hs0.
      { rewrite (check_no_sale _ _ _ _ _ _ _ _ _ _ _ Hpage H0 H1) in Hrun
          by (left; assumption).
        inversion Hrun; subst. discriminate Hsale. }
      destruct (strip t1) as [|c1 s1] eqn:Hs1.
      { rewrite (check_no_sale _ _ _ _ _ _ _ _ _ _ _ Hpage H0 H1) in Hrun
          by (right; assumption).
        inversion Hrun; subst. discriminate Hsale. }
      assert (Hn0 : strip t0 <> []) by (rewrite Hs0; discriminate).
      assert (Hn1 : strip t1 <> []) by (rewrite Hs1; discriminate).
      rewrite (check_sale _ _ _ _ _ _ _ _ _ _ _ Hpage H0 H1 Hn0 Hn1) in Hrun.
      inversion Hrun; subst.
      exists title, e0, e1, others, h4, h5, t0, t1.
      cbn [host]. rewrite Hs0, Hs1 in *. repeat split; auto.
Qed.

Lemma sale_prices_are_priced (product_url : pystr) (w w' : World H)
  (d : product_details) :
  check_specific_item_price_selenium product_url w = (Ok d, w') ->
  is_on_sale d = true ->
  exists o,
    original_price d = Some o /\
    o <> [] /\ trimmed o /\
    current_price d <> [] /\ trimmed (current_price d).
Proof.
  intros Hrun Hsale.
  destruct (sale_inversion _ _ _ _ Hrun Hsale)
    as (title & e0 & e1 & others & h4 & h5 & t0 & t1 & _ & _ & _
        & Hn0 & Hn1 & ->).
  exists (strip t0). cbn [original_price current_price]. unfold trimmed.
  repeat split; auto using strip_idempotent.
Qed.

(** X10: an item is reported on sale only for two prices.  If the
    snapshot is on sale, the page was reached, its price query gave at
    least two elements, the texts of the first two were read and are
    non-empty once stripped, and the snapshot holds the title and these
    two stripped texts. *)
Theorem sale_needs_two_prices (product_url : pystr) (w w' : World H)
  (d : product_details) :
  check_specific_item_price_selenium product_url w = (Ok d, w') ->
  is_on_sale d = true ->
  exists title e0 e1 others h4 h5 t0 t1,
    page_yields product_url (host w) title (e0 :: e1 :: others) h4 /\
    element_text e0 h4 = (Ok t0, h5) /\
    element_text e1 h5 = (Ok t1, host w') /\
    strip t0 <> [] /\ strip t1 <> [] /\
    d = {| name := title;
           current_price := strip t1;
           is_on_sale := true;
           original_price := Some (strip t0);
           url := product_url |}.
Proof.
  intros Hrun Hsale. now apply sale_inversion.
Qed.

(** X11: the prices of an item on sale are presentable.  If the snapshot
    is on sale, its original price is present, and both its original and
    its current price are non-empty and carry no white space at either
    end. *)
Theorem sale_prices_are_trimmed (product_url : pystr) (w w' : World H)
  (d : product_details) :
  check_specific_item_price_selenium product_url w = (Ok d, w') ->
  is_on_sale d = true ->
  exists o,
    original_price d = Some o /\
    o <> [] /\ trimmed o /\
    current_price d <> [] /\ trimmed (current_price d).
Proof.
  intros Hrun Hsale. now apply (sale_prices_are_priced _ _ _ _ Hrun).
Qed.

Lemma loop_snapshots_priced (urls : list pystr) (total i : nat)
  (w : World H) (d : product_details) :
  In d (loop_snapshots total i urls w) ->
  is_on_sale d = true ->
  exists o,
    original_price d = Some o /\
    o <> [] /\ trimmed o /\
    current_price d <> [] /\ trimmed (current_price d).
Proof.
  revert i w.
  induction urls as [|product_url rest IH]; intros i w Hin Hsale.
  - contradiction.
  - cbn [loop_snapshots] in Hin.
    destruct (check_specific_item_price_selenium product_url
                (snd (print (progress_line total i product_url) w)))
      as [[d0|e] w2] eqn:Hrun; [|contradiction].
    destruct Hin as [<- | Hin].
    + now apply (sale_prices_are_priced _ _ _ _ Hrun).
    + now apply (IH _ _ Hin).
Qed.

(** X12: the message of a run never shows a missing price.  Every
    snapshot of a run that is on sale, hence every item of the message,
    has an original price, and both its prices are non-empty and
    trimmed. *)
Theorem run_lists_real_prices (cfg : Config) (w : World H)
  (d : product_details) :
  In d (filter is_on_sale (run_snapshots cfg w)) ->
  exists o,
    original_price d = Some o /\
    o <> [] /\ trimmed o /\
    current_price d <> [] /\ trimmed (current_price d).
Proof.
  intros Hin. apply filter_In in Hin as [Hin Hsale].
  rewrite run_snapshots_unfold in Hin.
  destruct (webdriver_Chrome CHROME_OPTIONS (host w)) as [[[]|e] h1];
    [|contradiction].
  now apply (loop_snapshots_priced _ _ _ _ _ Hin).
Qed.

End SaleSnapshots.

(** ** The further properties on scripted hosts *)

Lemma chrome_failure_aborts_run_witness :
  main three_config (without_chrome CHROME_NOT_FOUND (scripted_world three_products))
  = (Raise CHROME_NOT_FOUND,
     mkWorld
       (host (without_chrome CHROME_NOT_FOUND (scripted_world three_products)))
       (trace (without_chrome CHROME_NOT_FOUND (scripted_world three_products))
        ++ [Printed
              (start_line three_config
                 (without_chrome CHROME_NOT_FOUND
                    (scripted_world three_products)))])) /\
  run_snapshots three_config
    (without_chrome CHROME_NOT_FOUND (scripted_world three_products)) = [].
Proof.
  apply (chrome_failure_aborts_run three_config
           (without_chrome CHROME_NOT_FOUND (scripted_world three_products))
           CHROME_NOT_FOUND).
  reflexivity.
Defined.

Lemma run_raises_only_at_its_ends_witness :
  ((exists h1,
      webdriver_Chrome CHROME_OPTIONS
        (host (without_chrome CHROME_NOT_FOUND (scripted_world three_products)))
      = (Raise CHROME_NOT_FOUND, h1)) \/
   (exists h1 h2 evs item items,
      webdriver_Chrome CHROME_OPTIONS
        (host (without_chrome CHROME_NOT_FOUND (scripted_world three_products)))
      = (Ok tt, h1) /\
      check_products (List.length (PRODUCT_URLS three_config)) 0
        (PRODUCT_URLS three_config) []
        (mkWorld h1
           (trace (without_chrome CHROME_NOT_FOUND
                     (scripted_world three_products))
            ++ [Printed
                  (start_line three_config
                     (without_chrome CHROME_NOT_FOUND
                        (scripted_world three_products)))]))
      = (Ok (item :: items),
         mkWorld h2
           (trace (without_chrome CHROME_NOT_FOUND
                     (scripted_world three_products))
            ++ Printed
                 (start_line three_config
                    (without_chrome CHROME_NOT_FOUND
                       (scripted_world three_products))) :: evs)) /\
      filter is_on_sale
        (run_snapshots three_config
           (without_chrome CHROME_NOT_FOUND (scripted_world three_products)))
      = item :: items /\
      configured three_config /\
      is_RequestException CHROME_NOT_FOUND = false /\
      requests_post (telegram_api_url three_config)
        (telegram_payload three_config (final_message (item :: items)))
        (driver_quit h2)
      = (Raise CHROME_NOT_FOUND,
         host (snd (main three_config
                      (without_chrome CHROME_NOT_FOUND
                         (scripted_world three_products))))))) /\
  ((exists h1,
      webdriver_Chrome CHROME_OPTIONS
        (host (with_telegram (Raise NOT_SERIALIZABLE)
                 (scripted_world three_products)))
      = (Raise NOT_SERIALIZABLE, h1)) \/
   (exists h1 h2 evs item items,
      webdriver_Chrome CHROME_OPTIONS
        (host (with_telegram (Raise NOT_SERIALIZABLE)
                 (scripted_world three_products)))
      = (Ok tt, h1) /\
      check_products (List.length (PRODUCT_URLS three_config)) 0
        (PRODUCT_URLS three_config) []
        (mkWorld h1
           (trace (with_telegram (Raise NOT_SERIALIZABLE)
                     (scripted_world three_products))
            ++ [Printed
                  (start_line three_config
                     (with_telegram (Raise NOT_SERIALIZABLE)
                        (scripted_world three_products)))]))
      = (Ok (item :: items),
         mkWorld h2
           (trace (with_telegram (Raise NOT_SERIALIZABLE)
                     (scripted_world three_products))
            ++ Printed
                 (start_line three_config
                    (with_telegram (Raise NOT_SERIALIZABLE)
                       (scripted_world three_products))) :: evs)) /\
      filter is_on_sale
        (run_snapshots three_config
           (with_telegram (Raise NOT_SERIALIZABLE)
              (scripted_world three_products)))
      = item :: items /\
      configured three_config /\
      is_RequestException NOT_SERIALIZABLE = false /\
      requests_post (telegram_api_url three_config)
        (telegram_payload three_config (final_message (item :: items)))
        (driver_quit h2)
      = (Raise NOT_SERIALIZABLE,
         host (snd (main three_config
                      (with_telegram (Raise NOT_SERIALIZABLE)
                         (scripted_world three_products))))))).
Proof.
  split.
  - apply (run_raises_only_at_its_ends three_config
             (without_chrome CHROME_NOT_FOUND (scripted_world three_products))
             (snd (main three_config
                     (without_chrome CHROME_NOT_FOUND
                        (scripted_world three_products))))).
    vm_compute. reflexivity.
  - apply (run_raises_only_at_its_ends three_config
             (with_telegram (Raise NOT_SERIALIZABLE)
                (scripted_world three_products))
             (snd (main three_config
                     (with_telegram (Raise NOT_SERIALIZABLE)
                        (scripted_world three_products))))).
    vm_compute. reflexivity.
Defined.

Lemma sale_needs_two_prices_witness :
  exists title e0 e1 others h4 h5 t0 t1,
    page_yields URL2 (host (scripted_world three_products)) title
      (e0 :: e1 :: others) h4 /\
    element_text e0 h4 = (Ok t0, h5) /\
    element_text e1 h5 = (Ok t1, on_page (scripted_world three_products)) /\
    strip t0 <> [] /\ strip t1 <> [] /\
    mkDetails (lit "AIRism Cotton T-Shirt") (lit "199.000") true
      (Some (lit "299.000")) URL2
    = {| name := title;
         current_price := strip t1;
         is_on_sale := true;
         original_price := Some (strip t0);
         url := URL2 |}.
Proof.
  apply (sale_needs_two_prices URL2 (scripted_world three_products)
           (mkWorld (on_page (scripted_world three_products)) [])
           (mkDetails (lit "AIRism Cotton T-Shirt") (lit "199.000") true
              (Some (lit "299.000")) URL2)).
  - vm_compute. reflexivity.
  - reflexivity.
Defined.

Lemma sale_prices_are_trimmed_witness :
  exists o,
    original_price
      (mkDetails (lit "AIRism Cotton T-Shirt") (lit "199.000") true
         (Some (lit "299.000")) URL2) = Some o /\
    o <> [] /\ trimmed o /\
    current_price
      (mkDetails (lit "AIRism Cotton T-Shirt") (lit "199.000") true
         (Some (lit "299.000")) URL2) <> [] /\
    trimmed
      (current_price
         (mkDetails (lit "AIRism Cotton T-Shirt") (lit "199.000") true
            (Some (lit "299.000")) URL2)).
Proof.
  apply (sale_prices_are_trimmed URL2 padded_prices_world
           (mkWorld (on_page padded_prices_world) [])
           (mkDetails (lit "AIRism Cotton T-Shirt") (lit "199.000") true
              (Some (lit "299.000")) URL2)).
  - vm_compute. reflexivity.
  - reflexivity.
Defined.

Lemma run_lists_real_prices_witness :
  exists o,
    original_price
      (mkDetails (lit "AIRism Cotton T-Shirt") (lit "199.000") true
         (Some (lit "299.000")) URL2) = Some o /\
    o <> [] /\ trimmed o /\
    current_price
      (mkDetails (lit "AIRism Cotton T-Shirt") (lit "199.000") true
         (Some (lit "299.000")) URL2) <> [] /\
    trimmed
      (current_price
         (mkDetails (lit "AIRism Cotton T-Shirt") (lit "199.000") true
            (Some (lit "299.000")) URL2)).
Proof.
  apply (run_lists_real_prices three_config (scripted_world three_products)
           (mkDetails (lit "AIRism Cotton T-Shirt") (lit "199.000") true
              (Some (lit "299.000")) URL2)).
  vm_compute. left. reflexivity.
Defined.

(** Two queries, the first page never shows its title, the second is on
    sale: the loop goes on and keeps the second. *)
Lemma loop_checks_every_query_witness :
  fst (check_products 2 0 [URL1; URL2] [] (scripted_world failing_then_sale))
  = Ok [mkDetails (lit "AIRism Cotton T-Shirt") (lit "199.000") true
          (Some (lit "299.000")) URL2] /\
  map url (loop_snapshots 2 0 [URL1; URL2] (scripted_world failing_then_sale))
  = [URL1; URL2].
Proof.
  destruct (loop_checks_every_query [URL1; URL2] 2 0 []
              (scripted_world failing_then_sale)) as [Hloop Hurls].
  split; [|exact Hurls].
  rewrite Hloop. vm_compute. reflexivity.
Defined.

Lemma run_posts_at_most_once_witness :
  exists evs,
    trace (snd (main three_config (scripted_world three_products)))
    = trace (scripted_world three_products) ++ evs /\
    posted evs
    = [(telegram_api_url three_config,
        telegram_payload three_config
          (final_message
             [mkDetails (lit "AIRism Cotton T-Shirt") (lit "199.000") true
                (Some (lit "299.000")) URL2]))].
Proof.
  destruct (run_posts_at_most_once three_config
              (scripted_world three_products)) as (evs & Htrace & Hposted).
  exists evs. split; [exact Htrace|].
  rewrite Hposted. vm_compute. reflexivity.
Defined.
